(** * Covid-19 dashboard (ui/app.py): normalisation, live fetch, roll-ups
      and forecast, embedded as functions over lists.

    Conventions of the embedding.
    - A pandas DataFrame read by [pd.read_csv] is a list of column labels
      and a list of rows; a cell is the text of its CSV field (the empty
      text is a missing value).
    - Counts are integers, hence [Z]; pandas holds them as int64 or, in
      a column with a missing value, as float64.  The two agree with [Z]
      as long as no sum, difference or product leaves the range in which
      both are exact: [in_range] and [small_counts] say so of an input,
      and a theorem whose statement depends on the values of the counts
      assumes them.  Cells holding fractions or infinities are outside
      the model.
    - Labels are byte strings, and the string methods of [Py] are those
      of Python on ASCII text; Python also folds and strips Unicode
      characters, so a theorem that depends on what [str.lower],
      [str.strip] or [str.isdigit] do to a label assumes [ascii_labels].
    - A timestamp is the number of days since 1970-01-01, in [Z]; [None]
      is pandas' NaT and, for numbers, NaN.
    - [pd.to_numeric] and [pd.to_datetime] (both with errors='coerce')
      are library parsers: the functions take them as arguments, one
      argument standing for what one call does to each cell of its
      column, and the closed examples instantiate them with decimal
      integers and ISO dates.
    - The two float computations of the file (forecast, synthetic data)
      are carried out over the real numbers, [int(x)] being truncation
      toward zero. *)

From Stdlib Require Import ZArith List String Ascii Bool Lia Sorted.
From Stdlib Require Import QArith_base DecimalString.
From Stdlib Require Import Reals Lra.
Import ListNotations.

Local Open Scope string_scope.
Local Open Scope Z_scope.

(** ** Python string primitives (ASCII) *)

Module Py.

Definition code (c : ascii) : nat := nat_of_ascii c.

(** [str.isdigit] on one ASCII character. *)
Definition isdigit (c : ascii) : bool :=
  (48 <=? code c)%nat && (code c <=? 57)%nat.

(** [str.isspace] on one ASCII character: TAB..CR, FS..US and space. *)
Definition isspace (c : ascii) : bool :=
  ((9 <=? code c)%nat && (code c <=? 13)%nat)
  || ((28 <=? code c)%nat && (code c <=? 32)%nat).

Definition lower_char (c : ascii) : ascii :=
  if (65 <=? code c)%nat && (code c <=? 90)%nat
  then ascii_of_nat (code c + 32) else c.

(** [str.lower]. *)
Fixpoint lower (s : string) : string :=
  match s with
  | EmptyString => EmptyString
  | String c r => String (lower_char c) (lower r)
  end.

Fixpoint lstrip_chars (l : list ascii) : list ascii :=
  match l with
  | [] => []
  | c :: r => if isspace c then lstrip_chars r else l
  end.

(** [str.strip]. *)
Definition strip (s : string) : string :=
  let l := lstrip_chars (list_ascii_of_string s) in
  string_of_list_ascii (rev (lstrip_chars (rev l))).

(** [any(p(ch) for ch in s)]. *)
Fixpoint any_char (p : ascii -> bool) (s : string) : bool :=
  match s with
  | EmptyString => false
  | String c r => p c || any_char p r
  end.

(** [ch in s] for a one-character [ch]. *)
Definition has_char (ch : ascii) (s : string) : bool :=
  any_char (Ascii.eqb ch) s.

(** [sep.join(l)]. *)
Fixpoint join (sep : string) (l : list string) : string :=
  match l with
  | [] => ""
  | [x] => x
  | x :: r => x ++ sep ++ join sep r
  end.

(** [x in l] for a list of strings. *)
Definition mem (x : string) (l : list string) : bool :=
  existsb (String.eqb x) l.

End Py.

(** ** pandas primitives *)

Module Pd.

(** *** groupby: sorted distinct keys, each with its rows in frame order *)

Section GroupBy.
Context {K A : Type}.
Variable eqb : K -> K -> bool.
Variable ltb : K -> K -> bool.

Fixpoint insert (k : K) (l : list K) : list K :=
  match l with
  | [] => [k]
  | h :: t => if ltb k h then k :: l else h :: insert k t
  end.

Definition add_key (k : K) (l : list K) : list K :=
  if existsb (eqb k) l then l else insert k l.

(** The distinct keys, ascending. *)
Definition group_keys (ks : list K) : list K :=
  fold_right add_key [] ks.

(** Rows whose key is [k]; a row without key (NaT/NaN) is in no group. *)
Definition members (key : A -> option K) (k : K) (rows : list A) : list A :=
  filter (fun r => match key r with Some k' => eqb k k' | None => false end)
         rows.

Fixpoint present (l : list (option K)) : list K :=
  match l with
  | [] => []
  | Some k :: t => k :: present t
  | None :: t => present t
  end.

Definition groupby (key : A -> option K) (rows : list A)
  : list (K * list A) :=
  map (fun k => (k, members key k rows))
      (group_keys (present (map key rows))).

(** [sort_values] on a key column (stable insertion sort). *)
Fixpoint insert_by (key : A -> K) (x : A) (l : list A) : list A :=
  match l with
  | [] => [x]
  | h :: t => if ltb (key x) (key h) then x :: l else h :: insert_by key x t
  end.

Definition sort_values (key : A -> K) (rows : list A) : list A :=
  fold_right (insert_by key) [] rows.
End GroupBy.

Definition sum (l : list Z) : Z := fold_right Z.add 0 l.

(** [Series.max] of a non-empty series. *)
Definition maximum (first : Z) (rest : list Z) : Z :=
  fold_left Z.max rest first.

(** [Series.diff]: the first entry is NaN. *)
Fixpoint diff_from (prev : Z) (l : list Z) : list (option Z) :=
  match l with
  | [] => []
  | x :: t => Some (x - prev) :: diff_from x t
  end.

Definition diff (l : list Z) : list (option Z) :=
  match l with
  | [] => []
  | x :: t => None :: diff_from x t
  end.

Definition fillna (v : Z) (l : list (option Z)) : list Z :=
  map (fun o => match o with Some x => x | None => v end) l.

Definition clip_lower (lo : Z) (l : list Z) : list Z := map (Z.max lo) l.

(** [Series.tail(n)]. *)
Definition tail {A} (n : nat) (l : list A) : list A :=
  skipn (List.length l - n) l.

End Pd.

(** ** Frames, tables and exceptions *)

(** The frame returned by [pd.read_csv]. *)
Record Frame := { columns : list string; rows : list (list string) }.

(** One record of the frame the dashboard works on. *)
Record Row := { date : Z; cases : Z; deaths : Z; recovered : Z }.

Definition Table := list Row.

Inductive exn :=
| ValueError (msg : string)      (* raised by app.py itself *)
| PandasError                    (* raised inside a pandas call *)
| RequestTimeout
| ConnectionError
| HTTPError (status : Z)
| JSONDecodeError
| AttributeError
| IndexError.

Inductive result (A : Type) :=
| Ok (a : A)
| Err (e : exn).
Arguments Ok {A} a.
Arguments Err {A} e.

Definition bind {A B} (r : result A) (f : A -> result B) : result B :=
  match r with
  | Ok a => f a
  | Err e => Err e
  end.

Notation "x <- r ;; k" := (bind r (fun x => k))
  (at level 61, r at next level, right associativity).

(** [df[name]] on a frame whose labels are [cols]: the cells of that
    column, row by row.  A label present twice selects a sub-frame, on
    which the pandas call that follows raises. *)
Fixpoint index_of (name : string) (cols : list string) : option nat :=
  match cols with
  | [] => None
  | c :: t => if String.eqb name c then Some O
              else option_map S (index_of name t)
  end.

Definition cell (j : nat) (r : list string) : string := nth j r "".

Definition series (name : string) (cols : list string)
  (rws : list (list string)) : result (list string) :=
  match index_of name cols with
  | None => Err PandasError
  | Some j =>
      if (1 <? count_occ string_dec cols name)%nat then Err PandasError
      else Ok (map (cell j) rws)
  end.

(** ** load_data (app.py, lines 8-64) *)

(** A row of [df.melt(id_vars=non_date_cols, value_vars=date_pattern_cols,
    var_name='date_str', value_name='cases')]. *)
Record Melted := { ids : list string; date_str : string; value : string }.

(** Line 11: the label holds a '/' or a '-', and a digit. *)
Definition is_date_pattern (col : string) : bool :=
  (Py.has_char "/" col || Py.has_char "-" col) && Py.any_char Py.isdigit col.

Definition date_pattern_cols (cols : list string) : list string :=
  filter is_date_pattern cols.

(** Line 14. *)
Definition non_date_cols (cols : list string) : list string :=
  filter (fun c => negb (Py.mem c (date_pattern_cols cols))) cols.

(** Line 13: the test that selects the wide-format branch. *)
Definition is_wide (cols : list string) : bool :=
  negb (match date_pattern_cols cols with [] => true | _ => false end)
  && negb (Py.mem "date" (map Py.lower cols)).

Definition indexed {A} (l : list A) : list (nat * A) :=
  combine (seq 0 (List.length l)) l.

(** The cells of a row under the labels that satisfy [keep]. *)
Definition pick (keep : string -> bool) (cols : list string)
  (r : list string) : list string :=
  map (fun jc => cell (fst jc) r)
      (filter (fun jc => keep (snd jc)) (indexed cols)).

(** Lines 15-16.  [melt] refuses a frame that already has a column
    labelled as [value_name]; a key column labelled as [var_name] leaves
    the label twice in the result, and [pd.to_datetime] raises on it. *)
Definition melt (df : Frame) : result (list Melted) :=
  let cols := columns df in
  if Py.mem "cases" cols || Py.mem "date_str" cols then Err PandasError
  else
    let id_vars := non_date_cols cols in
    Ok (flat_map
          (fun jc =>
             if is_date_pattern (snd jc) then
               map (fun r => {| ids := pick (fun c => Py.mem c id_vars) cols r;
                                date_str := snd jc;
                                value := cell (fst jc) r |})
                   (rows df)
             else [])
          (indexed cols)).

(** Line 23. *)
Definition looks_cumulative (c : list Z) : bool :=
  (1 <? List.length c)%nat && (hd 0 c * 10 <? last c 0).

(** Line 24. *)
Definition decumulate (c : list Z) : list Z :=
  Pd.clip_lower 0 (Pd.fillna (hd 0 c) (Pd.diff c)).

Definition mk_row (d c x r : Z) : Row :=
  {| date := d; cases := c; deaths := x; recovered := r |}.

Definition all_none {A} (l : list (option A)) : bool :=
  forallb (fun o => match o with None => true | Some _ => false end) l.

Definition missing_message (missing found : list string) : string :=
  "Missing required columns: " ++ Py.join ", " missing
  ++ ". Found columns: " ++ Py.join ", " (firstn 10 found) ++ "...".

Definition bad_date_message : string :=
  "Could not parse date column. Please ensure dates are in format YYYY-MM-DD".

Definition bad_cases_message : string :=
  "Could not parse cases column. Please ensure it contains numbers".

Definition empty_message : string :=
  "No valid data rows found after cleaning".

Section LoadData.
(** [pd.to_numeric(., errors='coerce')] and
    [pd.to_datetime(., errors='coerce')] on one cell. *)
Variable to_numeric : string -> option Z.
Variable to_datetime : string -> option Z.

(** [pd.to_numeric(., errors='coerce').fillna(0)] on one cell. *)
Definition num (s : string) : Z :=
  match to_numeric s with Some z => z | None => 0 end.

Definition melted_date (m : Melted) : option Z := to_datetime (date_str m).

(** Lines 17-21: per-date totals, ascending.  A group key is never NaT,
    so the [dropna] of line 20 removes nothing. *)
Definition date_totals (ms : list Melted) : list (Z * Z) :=
  Pd.sort_values Z.ltb fst
    (map (fun g => (fst g, Pd.sum (map (fun m => num (value m)) (snd g))))
         (Pd.groupby Z.eqb Z.ltb melted_date ms)).

(** The dates the groups of line 19 are keyed by. *)
Definition melted_keys (ms : list Melted) : list Z :=
  Pd.group_keys Z.eqb Z.ltb (Pd.present (map melted_date ms)).

(** The total of the group of one date. *)
Definition melted_total (ms : list Melted) (d : Z) : Z :=
  Pd.sum (map (fun m => num (value m)) (Pd.members Z.eqb melted_date d ms)).

(** Lines 14-27. *)
Definition load_wide (df : Frame) : result Table :=
  ms <- melt df ;;
  let totals := date_totals ms in
  let c := map snd totals in
  let c' := if looks_cumulative c then decumulate c else c in
  Ok (map (fun dc => mk_row (fst dc) (snd dc) 0 0)
          (combine (map fst totals) c')).

(** Lines 45-53: an optional count column. *)
Definition optional_counts (name : string) (cols : list string)
  (rws : list (list string)) : result (list Z) :=
  if Py.mem name cols then
    s <- series name cols rws ;; Ok (map num s)
  else Ok (map (fun _ => 0) rws).

(** Line 55: [dropna(subset=['date', 'cases'])]. *)
Fixpoint dropna (d c : list (option Z)) (x r : list Z) : Table :=
  match d, c, x, r with
  | od :: d', oc :: c', x0 :: x', r0 :: r' =>
      match od, oc with
      | Some dv, Some cv => mk_row dv cv x0 r0 :: dropna d' c' x' r'
      | _, _ => dropna d' c' x' r'
      end
  | _, _, _, _ => []
  end.

(** Lines 30-55. *)
Definition load_long (df : Frame) : result Table :=
  let cols := map (fun c => Py.strip (Py.lower c)) (columns df) in
  let missing_cols :=
    filter (fun c => negb (Py.mem c cols)) ["date"; "cases"] in
  match missing_cols with
  | _ :: _ => Err (ValueError (missing_message missing_cols cols))
  | [] =>
      ds <- series "date" cols (rows df) ;;
      let d := map to_datetime ds in
      if all_none d then Err (ValueError bad_date_message)
      else
        cs <- series "cases" cols (rows df) ;;
        let c := map to_numeric cs in
        if all_none c then Err (ValueError bad_cases_message)
        else
          x <- optional_counts "deaths" cols (rows df) ;;
          r <- optional_counts "recovered" cols (rows df) ;;
          Ok (dropna d c x r)
  end.

(** Lines 8-64.  The [astype(int)] of lines 60-62 is the identity on
    integer counts that int64 holds; those of a frame that is [in_range]
    are of this kind ([exact_counts]). *)
Definition load_data (df : Frame) : result Table :=
  t <- (if is_wide (columns df) then load_wide df else load_long df) ;;
  match t with
  | [] => Err (ValueError empty_message)
  | _ :: _ => Ok t
  end.

(** What the specification calls the sum for a date: the cells of all
    rows under the date-like labels that parse to [d], a cell that is
    not a number counting 0. *)
Definition parses_to (d : Z) (col : string) : bool :=
  match to_datetime col with Some d' => d =? d' | None => false end.

Definition column_total (df : Frame) (d : Z) : Z :=
  Pd.sum (map (fun jc =>
                 if is_date_pattern (snd jc) && parses_to d (snd jc)
                 then Pd.sum (map (fun r => num (cell (fst jc) r)) (rows df))
                 else 0)
              (indexed (columns df))).

End LoadData.

(** Two frames with the same labels and, row by row, the same cells
    under the date-like labels. *)
Definition same_date_cells (df df' : Frame) : Prop :=
  columns df' = columns df
  /\ map (pick is_date_pattern (columns df)) (rows df')
     = map (pick is_date_pattern (columns df)) (rows df).

(** The two columns of a melted row that lines 17-19 read. *)
Definition melted_pair (m : Melted) : string * string :=
  (date_str m, value m).

(** Running totals of a series ([Series.cumsum]). *)
Fixpoint cumsum_from (acc : Z) (l : list Z) : list Z :=
  match l with
  | [] => []
  | x :: t => (acc + x) :: cumsum_from (acc + x) t
  end.

Definition cumsum (l : list Z) : list Z := cumsum_from 0 l.

(** Ascending dates without repetition. *)
Definition dates_ascending (t : Table) : Prop :=
  StronglySorted Z.lt (map date t).

(** ** Calendar: the proleptic Gregorian calendar on day numbers *)

Module Calendar.

(** Day number of the civil date [y]-[m]-[d] (1970-01-01 is day 0). *)
Definition days_from_civil (y m d : Z) : Z :=
  let y' := if m <=? 2 then y - 1 else y in
  let era := y' / 400 in
  let yoe := y' - era * 400 in
  let mp := if 2 <? m then m - 3 else m + 9 in
  let doy := (153 * mp + 2) / 5 + d - 1 in
  let doe := yoe * 365 + yoe / 4 - yoe / 100 + doy in
  era * 146097 + doe - 719468.

(** Year and month of a day number. *)
Definition civil_from_days (z : Z) : Z * Z :=
  let z' := z + 719468 in
  let era := z' / 146097 in
  let doe := z' - era * 146097 in
  let yoe := (doe - doe / 1460 + doe / 36524 - doe / 146096) / 365 in
  let doy := doe - (365 * yoe + yoe / 4 - yoe / 100) in
  let mp := (5 * doy + 2) / 153 in
  let m := if mp <? 10 then mp + 3 else mp - 9 in
  ((if m <=? 2 then yoe + era * 400 + 1 else yoe + era * 400), m).

(** [Series.dt.year] and [Series.dt.quarter]. *)
Definition year (z : Z) : Z := fst (civil_from_days z).
Definition quarter (z : Z) : Z := (snd (civil_from_days z) - 1) / 3 + 1.

End Calendar.

(** ** Concrete parsers for the closed examples: decimal integers and
       ISO dates, on which pandas' parsers agree with them *)

Module Parse.

Definition digit_value (c : ascii) : option Z :=
  if Py.isdigit c then Some (Z.of_nat (Py.code c) - 48) else None.

Fixpoint digits (acc : Z) (l : list ascii) : option Z :=
  match l with
  | [] => Some acc
  | c :: t =>
      match digit_value c with
      | Some v => digits (10 * acc + v) t
      | None => None
      end
  end.

Definition natural (l : list ascii) : option Z :=
  match l with
  | [] => None
  | _ :: _ => digits 0 l
  end.

(** An optional minus sign and at least one digit. *)
Definition integer (s : string) : option Z :=
  match list_ascii_of_string s with
  | "-"%char :: t => option_map Z.opp (natural t)
  | l => natural l
  end.

(** YYYY-MM-DD, month 1-12, day 1-31. *)
Definition iso_date (s : string) : option Z :=
  match list_ascii_of_string s with
  | [y1; y2; y3; y4; "-"%char; m1; m2; "-"%char; d1; d2] =>
      match digits 0 [y1; y2; y3; y4], digits 0 [m1; m2], digits 0 [d1; d2] with
      | Some y, Some m, Some d =>
          if (1 <=? m) && (m <=? 12) && (1 <=? d) && (d <=? 31)
          then Some (Calendar.days_from_civil y m d) else None
      | _, _, _ => None
      end
  | _ => None
  end.

End Parse.

(** ** Float to integer conversions, over the reals *)

(** [int(x)] and [ndarray.astype(int)]: truncation toward zero. *)
Definition trunc (x : R) : Z :=
  if Rle_dec 0 x then Int_part x else - Int_part (- x).


(** ** create_sample_data (app.py, lines 66-122) *)

(** The decoded response.  The values under 'cases', 'deaths' and
    'recovered' are objects from date strings to integers, as the
    endpoint serves them; any other JSON value is kept with its Python
    truth value only. *)
Inductive json_value :=
| JDict (items : list (string * Z))
| JNotDict (truthy : bool).

Inductive json_doc :=
| JObject (fields : list (string * json_value))
| JNotObject.

(** What [requests.get(url, timeout=10)] does. *)
Inductive http :=
| TimedOut
| Unreachable
| Response (status : Z) (body : option json_doc).

(** [data.get(key, {})]. *)
Fixpoint dict_get (key : string) (fields : list (string * json_value))
  : json_value :=
  match fields with
  | [] => JDict []
  | (k, v) :: t => if String.eqb key k then v else dict_get key t
  end.

(** [d.items()]. *)
Definition items_of (v : json_value) : result (list (string * Z)) :=
  match v with
  | JDict l => Ok l
  | JNotDict _ => Err AttributeError
  end.

(** [if d:]. *)
Definition truthy_value (v : json_value) : bool :=
  match v with
  | JDict [] => false
  | JDict (_ :: _) => true
  | JNotDict b => b
  end.

Definition set_deaths (r : Row) (v : Z) : Row :=
  mk_row (date r) (cases r) v (recovered r).
Definition set_recovered (r : Row) (v : Z) : Row :=
  mk_row (date r) (cases r) (deaths r) v.
Definition set_cases (r : Row) (v : Z) : Row :=
  mk_row (date r) v (deaths r) (recovered r).

(** [df.merge(other, on='date', how='left')] followed by [fillna(0)] on
    the merged column: a row without partner gets 0, a row with several
    partners is repeated. *)
Definition merge_left (set : Row -> Z -> Row) (df : Table)
  (other : list (Z * Z)) : Table :=
  flat_map
    (fun r =>
       match filter (fun o => fst o =? date r) other with
       | [] => [set r 0]
       | ms => map (fun o => set r (snd o)) ms
       end)
    df.

(** Replace one column of a table, row by row. *)
Definition with_column (set : Row -> Z -> Row) (df : Table) (c : list Z)
  : Table :=
  map (fun rc => set (fst rc) (snd rc)) (combine df c).

(** Lines 97-98, 101-102, 105-106: [iloc[0]] raises on an empty frame. *)
Definition daily (get : Row -> Z) (set : Row -> Z -> Row) (df : Table)
  : result Table :=
  match df with
  | [] => Err IndexError
  | _ :: _ => Ok (with_column set df (decumulate (map get df)))
  end.

Section Live.
(** [pd.to_datetime] on one cell; [None] makes the call raise here,
    where errors='coerce' is not given. *)
Variable to_datetime : string -> option Z.

Fixpoint dated (l : list (string * Z)) : result (list (Z * Z)) :=
  match l with
  | [] => Ok []
  | (s, v) :: t =>
      match to_datetime s with
      | None => Err PandasError
      | Some d => t' <- dated t ;; Ok ((d, v) :: t')
      end
  end.

(** Lines 80-86 and 88-94. *)
Definition join_counts (set : Row -> Z -> Row) (v : json_value)
  (df : Table) : result Table :=
  if truthy_value v then
    l <- items_of v ;;
    other <- dated l ;;
    Ok (merge_left set df other)
  else Ok (map (fun r => set r 0) df).

(** Lines 68-108: the body of the [try]. *)
Definition live (resp : http) : result Table :=
  match resp with
  | TimedOut => Err RequestTimeout
  | Unreachable => Err ConnectionError
  | Response status body =>
      if (400 <=? status) && (status <? 600) then Err (HTTPError status)
      else
        match body with
        | None => Err JSONDecodeError
        | Some JNotObject => Err AttributeError
        | Some (JObject data) =>
            let cases_dict := dict_get "cases" data in
            let deaths_dict := dict_get "deaths" data in
            let recovered_dict := dict_get "recovered" data in
            l <- items_of cases_dict ;;
            dc <- dated l ;;
            let df := map (fun x => mk_row (fst x) (snd x) 0 0) dc in
            df <- join_counts set_deaths deaths_dict df ;;
            df <- join_counts set_recovered recovered_dict df ;;
            let df := Pd.sort_values Z.ltb date df in
            df <- daily cases set_cases df ;;
            df <- daily deaths set_deaths df ;;
            daily recovered set_recovered df
        end
  end.

(** Line 111: [pd.date_range(start='2020-01-01', end='2023-12-31',
    freq='D')]. *)
Definition fallback_start : Z := Calendar.days_from_civil 2020 1 1.
Definition fallback_end : Z := Calendar.days_from_civil 2023 12 31.

Definition date_range (start : Z) (periods : nat) : list Z :=
  map (fun k => start + Z.of_nat k) (seq 0 periods).

Definition fallback_dates : list Z :=
  date_range fallback_start (Z.to_nat (fallback_end - fallback_start + 1)).

(** Line 112, entry [k]; [draw] is the value of [np.random.randint]. *)
Definition fallback_cases (draw : Z) (k : nat) : R :=
  (IZR draw + sin (INR k * 0.1) * 200)%R.

(** Lines 111-121.  [rc], [rd] and [rr] give the draws of the three
    calls of [np.random.randint], by position. *)
Definition fallback (rc rd rr : nat -> Z) : Table :=
  map (fun k =>
         let c := fallback_cases (rc k) k in
         mk_row (fallback_start + Z.of_nat k)
                (trunc c)
                (trunc (c * 0.02 + IZR (rd k))%R)
                (trunc (c * 0.8 + IZR (rr k))%R))
      (seq 0 (List.length fallback_dates)).

(** Lines 66-122: [except Exception] takes every exception of the body
    to the fallback. *)
Definition create_sample_data (resp : http) (rc rd rr : nat -> Z)
  : result Table :=
  match live resp with
  | Ok df => Ok df
  | Err _ => Ok (fallback rc rd rr)
  end.
End Live.

(** ** predict_cases (app.py, lines 124-139) *)

(** [df['date'].max()]. *)
Definition max_date (df : Table) : Z :=
  match map date df with
  | [] => 0
  | d :: t => Pd.maximum d t
  end.

(** Line 128. *)
Definition last_week_avg (df : Table) : R :=
  (IZR (Pd.sum (map cases (Pd.tail 7 df))) / 7)%R.

(** Line 132. *)
Definition pred (avg : R) (i : nat) : R :=
  (avg * (1 + 0.05 * sin (INR i * 0.1)))%R.

Definition predict_cases (df : Table) (days : nat) : option (list (Z * Z)) :=
  if (List.length df <? 7)%nat then None
  else
    let predictions := map (fun i => trunc (pred (last_week_avg df) i))
                           (seq 0 days) in
    let future_dates := date_range (max_date df + 1) days in
    Some (combine future_dates predictions).


(** ** Year and quarter roll-ups (app.py, lines 192-225) *)

Record Stat (K : Type) := { key : K; total : Z; average : Q; peak : Z }.
Arguments key {K} _.
Arguments total {K} _.
Arguments average {K} _.
Arguments peak {K} _.

(** [str(n)] for an integer. *)
Definition str (n : Z) : string :=
  DecimalString.NilZero.string_of_int (Z.to_int n).

(** Lines 200-202. *)
Definition year_of (r : Row) : Z := Calendar.year (date r).
Definition quarter_of (r : Row) : Z := Calendar.quarter (date r).
Definition year_quarter (r : Row) : string :=
  (str (year_of r) ++ " Q" ++ str (quarter_of r))%string.

(** [.agg(['sum', 'mean', 'max'])] on the cases of one group. *)
Definition agg {K} (g : K * list Row) : Stat K :=
  let c := map cases (snd g) in
  {| key := fst g;
     total := Pd.sum c;
     average := Qmake (Pd.sum c) (Pos.of_nat (List.length c));
     peak := match c with [] => 0 | x :: t => Pd.maximum x t end |}.

(** Line 205. *)
Definition year_stats (df : Table) : list (Stat Z) :=
  map agg (Pd.groupby Z.eqb Z.ltb (fun r => Some (year_of r)) df).

(** Lines 223-225. *)
Definition quarter_stats (df : Table) : list (Stat string) :=
  Pd.sort_values String.ltb key
    (map agg (Pd.groupby String.eqb String.ltb
                         (fun r => Some (year_quarter r)) df)).

(** ** The data-model invariant and sample inputs *)

(** The data model asks of a table that its dates ascend without
    repetition ([dates_ascending]) and that no count is negative. *)
Definition nonneg_counts (t : Table) : Prop :=
  Forall (fun r => 0 <= cases r /\ 0 <= deaths r /\ 0 <= recovered r) t.

(** The normalised labels of line 30 and the required ones that are
    absent (line 32). *)
Definition normalized_cols (df : Frame) : list string :=
  map (fun c => Py.strip (Py.lower c)) (columns df).

Definition missing_cols (df : Frame) : list string :=
  filter (fun c => negb (Py.mem c (normalized_cols df))) ["date"; "cases"].

Module Sample.


(** region,deaths,2020-01-01,2020-01-02 / A,9,4,5 / B,7,3,x *)
Definition wide_flat : Frame :=
  {| columns := ["region"; "deaths"; "2020-01-01"; "2020-01-02"];
     rows := [["A"; "9"; "4"; "5"]; ["B"; "7"; "3"; "x"]] |}.




(** Date,Cases / 2021-01-02,3 / 2021-01-01,-4 / 2021-01-01,7 *)
Definition long_unsorted : Frame :=
  {| columns := ["Date"; " Cases "];
     rows := [["2021-01-02"; "3"]; ["2021-01-01"; "-4"]; ["2021-01-01"; "7"]] |}.

(** date,cases / 2021-01-01,100 / 2021-01-02,150 *)
Definition long_two_days : Frame :=
  {| columns := ["date"; "cases"];
     rows := [["2021-01-01"; "100"]; ["2021-01-02"; "150"]] |}.

(** Date,Deaths / 2021-01-02,3 *)
Definition long_no_cases : Frame :=
  {| columns := ["Date"; "Deaths"]; rows := [["2021-01-02"; "3"]] |}.


Definition week_table (count : Z) : Table :=
  map (fun k => mk_row (18628 + Z.of_nat k) count 0 0) (seq 0 7).

Definition load := load_data Parse.integer Parse.iso_date.

End Sample.

(** ** The long-format branch, row by row *)

Section LongRows.
Variable to_numeric : string -> option Z.
Variable to_datetime : string -> option Z.

(** The reading of an optional count column at one row: 0 when the frame
    has no such column or the cell is not a number (lines 45-53). *)
Definition opt_num (j : option nat) (row : list string) : Z :=
  match j with
  | Some j => num to_numeric (cell j row)
  | None => 0
  end.

(** The record of one input row, if its date and its cases both parse. *)
Definition long_row (jd jc : nat) (jx jr : option nat) (row : list string)
  : list Row :=
  match to_datetime (cell jd row), to_numeric (cell jc row) with
  | Some d, Some c => [mk_row d c (opt_num jx row) (opt_num jr row)]
  | _, _ => []
  end.

Definition long_rows (jd jc : nat) (jx jr : option nat)
  (rws : list (list string)) : Table :=
  flat_map (long_row jd jc jx jr) rws.
End LongRows.

(** A label that occurs at most once among the normalised labels. *)
Definition at_most_once (name : string) (cols : list string) : Prop :=
  (count_occ string_dec cols name <= 1)%nat.

(** ** The quick statistics (app.py, lines 192-196) *)

(** [df['cases'].sum()] and [df['cases'].max()]. *)
Definition total_cases (df : Table) : Z := Pd.sum (map cases df).

Definition peak_cases (df : Table) : Z :=
  match map cases df with
  | [] => 0
  | x :: t => Pd.maximum x t
  end.

(** ** The session state over the runs of the script (app.py, lines
       145-166 and 168) *)

(** One click on "Load live data from API": what the request does and
    what the three calls of [np.random.randint] would draw. *)
Record Click := {
  response : http;
  draw_cases : nat -> Z;
  draw_deaths : nat -> Z;
  draw_recovered : nat -> Z
}.

(** One run of the script: whether the button was clicked, and the file
    in the uploader, if any. *)
Record Run := { click : option Click; uploaded_file : option Frame }.

Section Script.
Variable to_numeric : string -> option Z.
Variable to_datetime : string -> option Z.

(** Lines 152-158: [st.session_state.data] after the button. *)
Definition after_button (data : option Table) (c : option Click)
  : option Table :=
  match c with
  | None => data
  | Some c =>
      match create_sample_data to_datetime (response c) (draw_cases c)
                               (draw_deaths c) (draw_recovered c) with
      | Ok df => Some df
      | Err _ => data
      end
  end.

(** Lines 160-166: [st.session_state.data] after the uploader. *)
Definition after_upload (data : option Table) (f : option Frame)
  : option Table :=
  match f with
  | None => data
  | Some file =>
      match load_data to_numeric to_datetime file with
      | Ok df => Some df
      | Err _ => None
      end
  end.

(** Lines 145-166: one run, from the state the session holds. *)
Definition run (data : option Table) (r : Run) : option Table :=
  after_upload (after_button data (click r)) (uploaded_file r).

(** A session: the state is None at first (lines 145-146). *)
Definition session (runs : list Run) : option Table :=
  fold_left run runs None.

(** Lines 246-267: the forecast shown for the state, if there is one. *)
Definition shown_forecast (data : option Table) : option (list (Z * Z)) :=
  match data with
  | None => None
  | Some df => predict_cases df 30
  end.
End Script.

(** ** The inputs on which the embedding is exact *)

(** [str.isascii]: the label holds ASCII characters only.  On such
    labels [str.lower], [str.strip] and [str.isdigit] are the functions
    of [Py]; on others Python also folds and strips Unicode characters. *)
Definition isascii (s : string) : bool :=
  forallb (fun c => (Py.code c <? 128)%nat) (list_ascii_of_string s).

Definition ascii_labels (df : Frame) : Prop :=
  Forall (fun c => isascii c = true) (columns df).

Section Range.
Variable to_numeric : string -> option Z.

(** The absolute values of the numbers in the cells of the frame, summed
    over all columns and rows. *)
Definition weight (df : Frame) : Z :=
  Pd.sum (map (fun jc =>
                 Pd.sum (map (fun r => Z.abs (num to_numeric (cell (fst jc) r)))
                             (rows df)))
              (indexed (columns df))).

(** pandas holds the counts as int64 or, beside a missing value, as
    float64: sums, differences and the product by 10 of line 23 are
    exact, and [astype(int)] changes nothing, as long as ten times the
    weight stays below 2^53. *)
Definition in_range (df : Frame) : Prop := 10 * weight df < 2 ^ 53.
End Range.


(** The counts of a series of the response, all below 2^52 in absolute
    value: their differences are exact in float64. *)
Definition small_counts (l : list Z) : Prop :=
  Forall (fun v => Z.abs v < 2 ^ 52) l.

Definition counts_of (v : json_value) : list Z :=
  match v with
  | JDict l => map snd l
  | JNotDict _ => []
  end.

(** A response whose three series hold small counts only. *)
Definition small_response (resp : http) : Prop :=
  match resp with
  | Response _ (Some (JObject data)) =>
      small_counts (counts_of (dict_get "cases" data))
      /\ small_counts (counts_of (dict_get "deaths" data))
      /\ small_counts (counts_of (dict_get "recovered" data))
  | _ => True
  end.

(** A run whose file and whose response are of these kinds. *)
Definition exact_run (to_numeric : string -> option Z) (r : Run) : Prop :=
  (forall f, uploaded_file r = Some f ->
             ascii_labels f /\ in_range to_numeric f)
  /\ (forall c, click r = Some c -> small_response (response c)).

(** A state that holds no table or a table with a row. *)
Definition never_empty (data : option Table) : Prop :=
  forall t, data = Some t -> t <> [].

(** ** More sample inputs *)

Module Demo.

(** date,cases,deaths / n/a,5,1 / soon,6,2 *)
Definition long_bad_dates : Frame :=
  {| columns := ["date"; "cases"; "deaths"];
     rows := [["n/a"; "5"; "1"]; ["soon"; "6"; "2"]] |}.

(** Date,Cases,Deaths / 2021-01-01,5,x / bad,6,2 / 2021-01-03,,4 /
    2021-01-02,7,3 *)
Definition long_mixed : Frame :=
  {| columns := ["Date"; "Cases"; "Deaths"];
     rows := [["2021-01-01"; "5"; "x"]; ["bad"; "6"; "2"];
              ["2021-01-03"; ""; "4"]; ["2021-01-02"; "7"; "3"]] |}.

(** region,Jan-1,Feb-2 / A,1,2 : date-like labels that do not parse. *)
Definition wide_unparsed : Frame :=
  {| columns := ["region"; "Jan-1"; "Feb-2"]; rows := [["A"; "1"; "2"]] |}.

(** {"cases": {"2020-01-02": 5, "2020-01-01": 3, "2020-01-03": 4},
     "deaths": {"2020-01-01": 1}} with status 200. *)
Definition partial_response : http :=
  Response 200
    (Some (JObject
             [("cases", JDict [("2020-01-02", 5); ("2020-01-01", 3);
                               ("2020-01-03", 4)]);
              ("deaths", JDict [("2020-01-01", 1)])])).

(** {"cases": {...: 3, ...: 8, ...: 8, ...: 20}, "deaths": {...: 0, 1, 1,
     4}, "recovered": {...: 0, 0, 2, 5}} over 2020-01-22 .. 2020-01-25,
    with status 200. *)
Definition days4 : list string :=
  ["2020-01-22"; "2020-01-23"; "2020-01-24"; "2020-01-25"].

Definition full_data : list (string * json_value) :=
  [("cases", JDict (combine days4 [3; 8; 8; 20]));
   ("deaths", JDict (combine days4 [0; 1; 1; 4]));
   ("recovered", JDict (combine days4 [0; 0; 2; 5]))].

(** {"deaths": {"2020-01-22": 1}}: no cases. *)
Definition no_cases_data : list (string * json_value) :=
  [("deaths", JDict [("2020-01-22", 1)])].

End Demo.

(** * Properties *)

(** ** Sums and grouping *)

Lemma sum_app (l1 l2 : list Z) : Pd.sum (l1 ++ l2) = Pd.sum l1 + Pd.sum l2.
Proof.
  unfold Pd.sum. induction l1 as [|x l1 IH]; simpl; [reflexivity|].
  rewrite IH. lia.
Qed.


Lemma sum_map_add {K} (g h : K -> Z) (l : list K) :
  Pd.sum (map (fun k => g k + h k) l) = Pd.sum (map g l) + Pd.sum (map h l).
Proof.
  unfold Pd.sum. induction l as [|k l IH]; simpl; lia.
Qed.

Lemma sum_map_zero {K} (l : list K) : Pd.sum (map (fun _ => 0) l) = 0.
Proof.
  unfold Pd.sum. induction l as [|k l IH]; simpl; lia.
Qed.

Section GroupByFacts.
Context {K A : Type}.
Variable eqb : K -> K -> bool.
Variable ltb : K -> K -> bool.
Hypothesis eqb_spec : forall x y, eqb x y = true <-> x = y.

Lemma existsb_eqb (k : K) (l : list K) : existsb (eqb k) l = true <-> In k l.
Proof.
  rewrite existsb_exists. split.
  - intros [x [Hin Hx]]. apply eqb_spec in Hx. now subst.
  - intros Hin. exists k. split; [assumption|]. now apply eqb_spec.
Qed.

Lemma in_insert (x k : K) (l : list K) :
  In x (Pd.insert ltb k l) <-> x = k \/ In x l.
Proof.
  induction l as [|h t IH]; simpl.
  - intuition auto.
  - destruct (ltb k h); simpl; [intuition auto|].
    rewrite IH. intuition auto.
Qed.

Lemma nodup_insert (k : K) (l : list K) :
  ~ In k l -> NoDup l -> NoDup (Pd.insert ltb k l).
Proof.
  induction l as [|h t IH]; simpl; intros Hk Hl.
  - constructor; [intros []|constructor].
  - destruct (ltb k h).
    + constructor; assumption.
    + inversion Hl as [|? ? Hh Ht]; subst.
      constructor.
      * rewrite in_insert. intros [->|Hin]; [apply Hk; now left|now apply Hh].
      * apply IH; [intros Hin; apply Hk; now right|assumption].
Qed.

Lemma in_add_key (x k : K) (l : list K) :
  In x (Pd.add_key eqb ltb k l) <-> x = k \/ In x l.
Proof.
  unfold Pd.add_key. destruct (existsb (eqb k) l) eqn:E.
  - apply existsb_eqb in E. split; [now right|].
    intros [->|Hin]; assumption.
  - apply in_insert.
Qed.

Lemma nodup_add_key (k : K) (l : list K) :
  NoDup l -> NoDup (Pd.add_key eqb ltb k l).
Proof.
  intros Hl. unfold Pd.add_key. destruct (existsb (eqb k) l) eqn:E.
  - assumption.
  - apply nodup_insert; [|assumption].
    intros Hin. apply existsb_eqb in Hin. congruence.
Qed.

Lemma in_group_keys (x : K) (ks : list K) :
  In x (Pd.group_keys eqb ltb ks) <-> In x ks.
Proof.
  unfold Pd.group_keys. induction ks as [|k ks IH]; simpl.
  - reflexivity.
  - rewrite in_add_key, IH. intuition auto.
Qed.

Lemma nodup_group_keys (ks : list K) : NoDup (Pd.group_keys eqb ltb ks).
Proof.
  unfold Pd.group_keys. induction ks as [|k ks IH]; simpl.
  - constructor.
  - now apply nodup_add_key.
Qed.

Lemma in_present (k : K) (l : list (option K)) :
  In k (Pd.present l) <-> In (Some k) l.
Proof.
  induction l as [|[h|] t IH]; simpl.
  - reflexivity.
  - rewrite IH. split; intros [H|H]; auto; left; congruence.
  - rewrite IH. split; [now right|]. intros [H|H]; [discriminate|assumption].
Qed.

(** One unit of weight [v] on the key [k0], collected over distinct keys. *)
Lemma sum_indicator (k0 : K) (v : Z) (keys : list K) :
  NoDup keys ->
  Pd.sum (map (fun k => if eqb k k0 then v else 0) keys)
  = if existsb (eqb k0) keys then v else 0.
Proof.
  unfold Pd.sum. induction 1 as [|k keys Hk Hnd IH]; simpl; [reflexivity|].
  rewrite IH. destruct (eqb k k0) eqn:E.
  - apply eqb_spec in E. subst k0.
    assert (E1 : eqb k k = true) by now apply eqb_spec.
    rewrite E1. simpl.
    destruct (existsb (eqb k) keys) eqn:E2.
    + apply existsb_eqb in E2. contradiction.
    + lia.
  - destruct (eqb k0 k) eqn:E1.
    + apply eqb_spec in E1. subst k0.
      assert (E2 : eqb k k = true) by now apply eqb_spec. congruence.
    + simpl. reflexivity.
Qed.

(** The group totals add up to the total of the rows that have a key. *)
Lemma groups_total (f : A -> Z) (key : A -> option K) (l : list A)
  (keys : list K) :
  NoDup keys ->
  Pd.sum (map (fun k => Pd.sum (map f (Pd.members eqb key k l))) keys)
  = Pd.sum (map f (filter (fun r => match key r with
                                    | Some k => existsb (eqb k) keys
                                    | None => false
                                    end) l)).
Proof.
  intros Hnd. induction l as [|r l IH]; simpl.
  - unfold Pd.sum. induction keys; simpl; [reflexivity|].
    inversion Hnd; subst. auto.
  - transitivity
      (Pd.sum (map (fun k => (if match key r with
                                 | Some k' => eqb k k'
                                 | None => false
                                 end then f r else 0)
                             + Pd.sum (map f (Pd.members eqb key k l)))
                   keys)).
    { f_equal. apply map_ext. intros k. unfold Pd.members. simpl.
      destruct (key r) as [k'|]; [destruct (eqb k k')|]; reflexivity. }
    transitivity
      (Pd.sum (map (fun k => if match key r with
                                | Some k' => eqb k k'
                                | None => false
                                end then f r else 0) keys)
       + Pd.sum (map (fun k => Pd.sum (map f (Pd.members eqb key k l)))
                     keys)).
    { apply sum_map_add. }
    rewrite IH. destruct (key r) as [k'|].
    + rewrite sum_indicator by assumption.
      destruct (existsb (eqb k') keys); simpl; unfold Pd.sum; simpl; lia.
    + replace (Pd.sum (map (fun _ : K => if false then f r else 0) keys))
        with 0; [lia|].
      clear. unfold Pd.sum. induction keys; simpl; lia.
Qed.

(** With every row keyed, grouping loses nothing. *)
Lemma groupby_total (f : A -> Z) (key : A -> K) (l : list A) :
  Pd.sum (map (fun g => Pd.sum (map f (snd g)))
              (Pd.groupby eqb ltb (fun r => Some (key r)) l))
  = Pd.sum (map f l).
Proof.
  unfold Pd.groupby. rewrite map_map. simpl.
  rewrite groups_total by apply nodup_group_keys.
  f_equal. f_equal. apply forallb_filter_id.
  apply forallb_forall. intros r Hr.
  apply existsb_eqb, in_group_keys, in_present, in_map_iff.
  exists r. split; [reflexivity|assumption].
Qed.

Lemma sum_insert_by (f : A -> Z) (key : A -> K) (x : A) (l : list A) :
  Pd.sum (map f (Pd.insert_by ltb key x l)) = f x + Pd.sum (map f l).
Proof.
  unfold Pd.sum. induction l as [|h t IH]; simpl; [reflexivity|].
  destruct (ltb (key x) (key h)); simpl; [reflexivity|].
  rewrite IH. lia.
Qed.

Lemma sum_sort_values (f : A -> Z) (key : A -> K) (l : list A) :
  Pd.sum (map f (Pd.sort_values ltb key l)) = Pd.sum (map f l).
Proof.
  unfold Pd.sort_values. induction l as [|x l IH]; simpl; [reflexivity|].
  rewrite sum_insert_by, IH. reflexivity.
Qed.
End GroupByFacts.

(** ** C9: the roll-ups keep the total *)

(** C9.  For every table, the 'Total Cases' of the yearly roll-up add up
    to the sum of the table's cases column, and so do those of the
    quarterly roll-up. *)
Theorem rollup_totals (df : Table) :
  Pd.sum (map total (year_stats df)) = Pd.sum (map cases df)
  /\ Pd.sum (map total (quarter_stats df)) = Pd.sum (map cases df).
Proof.
  split.
  - unfold year_stats. rewrite map_map. simpl.
    apply (groupby_total Z.eqb Z.ltb Z.eqb_eq cases year_of).
  - unfold quarter_stats.
    rewrite (sum_sort_values String.ltb total key).
    rewrite map_map. simpl.
    apply (groupby_total String.eqb String.ltb String.eqb_eq cases
                         year_quarter).
Qed.

(** ** Ascending keys *)

Lemma insert_sorted (k : Z) (l : list Z) :
  StronglySorted Z.lt l -> ~ In k l ->
  StronglySorted Z.lt (Pd.insert Z.ltb k l).
Proof.
  induction 1 as [|h t Ht IH Hh]; simpl; intros Hk.
  - constructor; constructor.
  - destruct (Z.ltb_spec k h) as [Hlt|Hge].
    + constructor; [constructor; assumption|].
      constructor; [assumption|].
      eapply Forall_impl; [|exact Hh]. simpl. intros; lia.
    + constructor.
      * apply IH. intros Hin. apply Hk. now right.
      * apply Forall_forall. intros x Hx.
        apply (in_insert Z.ltb) in Hx. destruct Hx as [->|Hx].
        -- assert (k <> h) by (intros ->; apply Hk; now left). lia.
        -- rewrite Forall_forall in Hh. now apply Hh.
Qed.

Lemma group_keys_sorted (ks : list Z) :
  StronglySorted Z.lt (Pd.group_keys Z.eqb Z.ltb ks).
Proof.
  unfold Pd.group_keys. induction ks as [|k ks IH]; simpl.
  - constructor.
  - unfold Pd.add_key at 1.
    destruct (existsb (Z.eqb k) _) eqn:E; [assumption|].
    apply insert_sorted; [assumption|].
    intros Hin. apply (existsb_eqb Z.eqb Z.eqb_eq) in Hin. congruence.
Qed.

Lemma insert_by_least {A} (key : A -> Z) (x : A) (l : list A) :
  Forall (fun y => key x < key y) l -> Pd.insert_by Z.ltb key x l = x :: l.
Proof.
  destruct 1 as [|h t Hh Ht]; simpl; [reflexivity|].
  destruct (Z.ltb_spec (key x) (key h)); [reflexivity|lia].
Qed.

(** Sorting a frame whose keys already ascend changes nothing. *)
Lemma sort_values_sorted {A} (key : A -> Z) (l : list A) :
  StronglySorted Z.lt (map key l) -> Pd.sort_values Z.ltb key l = l.
Proof.
  unfold Pd.sort_values. induction l as [|x l IH]; simpl; intros Hs.
  - reflexivity.
  - inversion Hs as [|? ? Hl Hx]; subst.
    rewrite IH by assumption. apply insert_by_least.
    rewrite Forall_map in Hx. exact Hx.
Qed.

(** ** The wide-format branch *)

Lemma diff_from_length (p : Z) (l : list Z) :
  List.length (Pd.diff_from p l) = List.length l.
Proof.
  revert p. induction l as [|x l IH]; simpl; intros p; [reflexivity|].
  now rewrite IH.
Qed.

Lemma decumulate_length (c : list Z) :
  List.length (decumulate c) = List.length c.
Proof.
  unfold decumulate, Pd.clip_lower, Pd.fillna. rewrite !length_map.
  destruct c as [|x c]; simpl; [reflexivity|].
  now rewrite diff_from_length.
Qed.

Lemma decumulate_nonneg (c : list Z) : Forall (fun x => 0 <= x) (decumulate c).
Proof.
  unfold decumulate, Pd.clip_lower. apply Forall_forall. intros x Hx.
  apply in_map_iff in Hx. destruct Hx as [y [<- _]]. lia.
Qed.

Lemma map_date_rows (ds cs : list Z) :
  List.length cs = List.length ds ->
  map date (map (fun dc => mk_row (fst dc) (snd dc) 0 0) (combine ds cs)) = ds
  /\ map cases (map (fun dc => mk_row (fst dc) (snd dc) 0 0) (combine ds cs))
     = cs.
Proof.
  revert cs. induction ds as [|d ds IH]; intros [|c cs] Hlen;
    simpl in *; try discriminate; [split; reflexivity|].
  destruct (IH cs) as [H1 H2]; [lia|]. rewrite H1, H2. split; reflexivity.
Qed.

Section WideFacts.
Variable to_numeric : string -> option Z.
Variable to_datetime : string -> option Z.

Lemma date_totals_eq (ms : list Melted) :
  date_totals to_numeric to_datetime ms
  = map (fun k => (k, melted_total to_numeric to_datetime ms k))
        (melted_keys to_datetime ms).
Proof.
  unfold date_totals, Pd.groupby. rewrite map_map. simpl.
  apply sort_values_sorted. rewrite map_map. simpl. rewrite map_id.
  apply group_keys_sorted.
Qed.

Lemma date_totals_dates (ms : list Melted) :
  map fst (date_totals to_numeric to_datetime ms)
  = melted_keys to_datetime ms.
Proof.
  rewrite date_totals_eq, map_map. simpl. apply map_id.
Qed.

Lemma date_totals_values (ms : list Melted) :
  map snd (date_totals to_numeric to_datetime ms)
  = map (melted_total to_numeric to_datetime ms)
        (melted_keys to_datetime ms).
Proof.
  rewrite date_totals_eq, map_map. reflexivity.
Qed.

(** The shape of what the wide branch returns. *)
Lemma load_wide_inv (df : Frame) (t : Table) :
  load_wide to_numeric to_datetime df = Ok t ->
  exists ms,
    melt df = Ok ms
    /\ map date t = melted_keys to_datetime ms
    /\ (let c := map (melted_total to_numeric to_datetime ms)
                     (melted_keys to_datetime ms) in
        map cases t
        = if looks_cumulative c then decumulate c else c)
    /\ Forall (fun r => deaths r = 0 /\ recovered r = 0) t.
Proof.
  unfold load_wide. destruct (melt df) as [ms|e]; simpl; [|discriminate].
  intros H. injection H as <-. exists ms. split; [reflexivity|].
  rewrite date_totals_values, date_totals_dates.
  set (ks := melted_keys to_datetime ms).
  set (c := map (melted_total to_numeric to_datetime ms) ks).
  set (c' := if looks_cumulative c then decumulate c else c).
  assert (Hlen : List.length c' = List.length ks).
  { unfold c', c. destruct (looks_cumulative _);
      rewrite ?decumulate_length, !length_map; reflexivity. }
  destruct (map_date_rows ks c' Hlen) as [H1 H2].
  repeat split; [exact H1|exact H2|].
  apply Forall_forall. intros r Hr. apply in_map_iff in Hr.
  destruct Hr as [dc [<- _]]. split; reflexivity.
Qed.
End WideFacts.

Lemma filter_const {A} (p : A -> bool) (b : bool) (l : list A) :
  (forall x, In x l -> p x = b) -> filter p l = if b then l else [].
Proof.
  induction l as [|x l IH]; simpl; intros H.
  - now destruct b.
  - rewrite (H x) by now left. rewrite IH by (intros; apply H; now right).
    now destruct b.
Qed.

Lemma sum_filter_flat_map {A B} (g : B -> Z) (p : B -> bool)
  (F : A -> list B) (l : list A) :
  Pd.sum (map g (filter p (flat_map F l)))
  = Pd.sum (map (fun x => Pd.sum (map g (filter p (F x)))) l).
Proof.
  induction l as [|x l IH]; simpl; [reflexivity|].
  rewrite filter_app, map_app, sum_app, IH. reflexivity.
Qed.

Lemma in_indexed_from {A} (c : A) (l : list A) (s : nat) :
  In c l <-> exists j, In (j, c) (combine (seq s (List.length l)) l).
Proof.
  revert s. induction l as [|x l IH]; simpl; intros s.
  - split; [intros []|intros [_ []]].
  - split.
    + intros [->|Hin].
      * exists s. now left.
      * apply (IH (S s)) in Hin. destruct Hin as [j Hj]. exists j. now right.
    + intros [j [Heq|Hin]].
      * left. congruence.
      * right. apply (IH (S s)). now exists j.
Qed.

Lemma in_indexed {A} (c : A) (l : list A) :
  In c l <-> exists j, In (j, c) (indexed l).
Proof. apply in_indexed_from. Qed.

Section MeltFacts.
Variable to_numeric : string -> option Z.
Variable to_datetime : string -> option Z.

Lemma melt_inv (df : Frame) (ms : list Melted) :
  melt df = Ok ms ->
  ms = flat_map
         (fun jc =>
            if is_date_pattern (snd jc) then
              map (fun r =>
                     {| ids := pick (fun c => Py.mem c
                                                (non_date_cols (columns df)))
                                    (columns df) r;
                        date_str := snd jc;
                        value := cell (fst jc) r |})
                  (rows df)
            else [])
         (indexed (columns df)).
Proof.
  unfold melt.
  destruct (Py.mem "cases" (columns df) || Py.mem "date_str" (columns df));
    [discriminate|].
  intros H. now injection H as <-.
Qed.

(** A group total of the melted frame is the total of the frame's cells
    under the labels of that date. *)
Lemma melted_total_columns (df : Frame) (ms : list Melted) (d : Z) :
  melt df = Ok ms ->
  melted_total to_numeric to_datetime ms d
  = column_total to_numeric to_datetime df d.
Proof.
  intros Hm. apply melt_inv in Hm. subst ms.
  unfold melted_total, Pd.members, column_total.
  rewrite sum_filter_flat_map. f_equal. apply map_ext.
  intros [j c]. simpl. destruct (is_date_pattern c); simpl; [|reflexivity].
  rewrite (filter_const _ (parses_to to_datetime d c)).
  - destruct (parses_to to_datetime d c); [|reflexivity].
    rewrite map_map. reflexivity.
  - intros m Hm. apply in_map_iff in Hm. destruct Hm as [r [<- _]].
    reflexivity.
Qed.

(** The dates of the groups are the dates the date-like labels parse
    to, provided the frame has a row. *)
Lemma melted_keys_columns (df : Frame) (ms : list Melted) (d : Z) :
  melt df = Ok ms -> rows df <> [] ->
  (In d (melted_keys to_datetime ms)
   <-> exists c, In c (date_pattern_cols (columns df))
                 /\ to_datetime c = Some d).
Proof.
  intros Hm Hrows. apply melt_inv in Hm. subst ms.
  unfold melted_keys.
  rewrite (in_group_keys Z.eqb Z.ltb Z.eqb_eq), in_present, in_map_iff.
  unfold date_pattern_cols. split.
  - intros [m [Hd Hin]]. apply in_flat_map in Hin.
    destruct Hin as [[j c] [Hjc Hin]]. simpl in Hin.
    destruct (is_date_pattern c) eqn:E; [|destruct Hin].
    apply in_map_iff in Hin. destruct Hin as [r [<- _]].
    exists c. split; [|exact Hd].
    apply filter_In. split; [|exact E].
    apply in_indexed. now exists j.
  - intros [c [Hc Hd]]. apply filter_In in Hc. destruct Hc as [Hc E].
    apply in_indexed in Hc. destruct Hc as [j Hj].
    destruct (rows df) as [|r rs] eqn:Er; [congruence|].
    eexists. split; [|apply in_flat_map; exists (j, c); split; [exact Hj|]].
    2:{ simpl. rewrite E. simpl. left. reflexivity. }
    exact Hd.
Qed.

Lemma melt_no_rows (df : Frame) (ms : list Melted) :
  melt df = Ok ms -> rows df = [] -> ms = [].
Proof.
  intros Hm Hrows. apply melt_inv in Hm. subst ms. rewrite Hrows.
  induction (indexed (columns df)) as [|[j c] l IH]; simpl; [reflexivity|].
  simpl in IH. rewrite IH. now destruct (is_date_pattern c).
Qed.
End MeltFacts.

Section WideResult.
Variable to_numeric : string -> option Z.
Variable to_datetime : string -> option Z.

Lemma load_data_inv (df : Frame) (t : Table) :
  load_data to_numeric to_datetime df = Ok t ->
  t <> []
  /\ (if is_wide (columns df) then load_wide to_numeric to_datetime df
      else load_long to_numeric to_datetime df) = Ok t.
Proof.
  unfold load_data.
  destruct (if is_wide (columns df) then _ else _) as [[|r t']|e];
    simpl; intros H; try discriminate.
  injection H as <-. split; [discriminate|reflexivity].
Qed.

(** What [load_data] returns on the wide branch: ascending dates, those
    of the date-like labels; cases built from the column totals; no
    deaths and no recoveries. *)
Lemma load_data_wide (df : Frame) (t : Table) :
  is_wide (columns df) = true ->
  load_data to_numeric to_datetime df = Ok t ->
  dates_ascending t
  /\ (forall d, In d (map date t)
                <-> exists c, In c (date_pattern_cols (columns df))
                              /\ to_datetime c = Some d)
  /\ (let totals :=
        map (fun r => column_total to_numeric to_datetime df (date r)) t in
      map cases t
      = if looks_cumulative totals then decumulate totals else totals)
  /\ Forall (fun r => deaths r = 0 /\ recovered r = 0) t.
Proof.
  intros Hw H. apply load_data_inv in H. destruct H as [Hne H].
  rewrite Hw in H. apply load_wide_inv in H.
  destruct H as [ms [Hm [Hd [Hc Hz]]]].
  assert (Hrows : rows df <> []).
  { intros Hr. apply (melt_no_rows df ms Hm) in Hr. subst ms.
    destruct t; [now apply Hne|discriminate]. }
  repeat split.
  - unfold dates_ascending. rewrite Hd. apply group_keys_sorted.
  - rewrite Hd. intros Hin.
    now apply (melted_keys_columns to_datetime df ms d Hm Hrows).
  - rewrite Hd. intros Hex.
    now apply (melted_keys_columns to_datetime df ms d Hm Hrows).
  - simpl in *.
    replace (map (fun r => column_total to_numeric to_datetime df (date r)) t)
      with (map (melted_total to_numeric to_datetime ms)
                (melted_keys to_datetime ms)); [exact Hc|].
    rewrite <- Hd, map_map. apply map_ext. intros r.
    now apply melted_total_columns.
  - exact Hz.
Qed.
End WideResult.

(** ** De-cumulation of a non-decreasing series *)

Lemma cumsum_diff_from (l : list Z) (p v : Z) :
  Sorted Z.le (p :: l) ->
  cumsum_from p (Pd.clip_lower 0 (Pd.fillna v (Pd.diff_from p l))) = l.
Proof.
  revert p. induction l as [|x l IH]; simpl; intros p Hs; [reflexivity|].
  inversion Hs as [|? ? Hl Hp]; subst. inversion Hp as [|? ? Hle]; subst.
  replace (Z.max 0 (x - p)) with (x - p) by lia.
  replace (p + (x - p)) with x by lia.
  now rewrite IH.
Qed.

Lemma last_ge_head (l : list Z) (p : Z) :
  Sorted Z.le (p :: l) -> p <= last (p :: l) 0.
Proof.
  revert p. induction l as [|x l IH]; intros p Hs; [simpl; lia|].
  inversion Hs as [|? ? Hl Hp]; subst. inversion Hp as [|? ? Hle]; subst.
  specialize (IH x Hl). change (last (p :: x :: l) 0) with (last (x :: l) 0).
  lia.
Qed.

(** On a non-decreasing series that starts at a non-negative value the
    differences are non-negative, start with the first value itself, and
    add back up to the series. *)
Lemma decumulate_monotone (c : list Z) :
  Sorted Z.le c -> 0 <= hd 0 c ->
  Forall (fun x => 0 <= x) (decumulate c)
  /\ cumsum (decumulate c) = c
  /\ hd 0 (decumulate c) = hd 0 c.
Proof.
  intros Hs H0. split; [apply decumulate_nonneg|].
  destruct c as [|x l]; [split; reflexivity|].
  simpl in H0. unfold decumulate, cumsum. simpl.
  replace (Z.max 0 x) with x by lia.
  split; [|reflexivity].
  f_equal. exact (cumsum_diff_from l x x Hs).
Qed.


(** ** The range of the totals *)



(** ** C4, C5, C10: the wide-format branch of load_data *)



Section KeyColumns.
Variable to_numeric : string -> option Z.
Variable to_datetime : string -> option Z.

Lemma sum_filter_through {A B} (proj : A -> B) (g : B -> Z) (p : B -> bool)
  (l : list A) :
  Pd.sum (map (fun m => g (proj m)) (filter (fun m => p (proj m)) l))
  = Pd.sum (map g (filter p (map proj l))).
Proof.
  induction l as [|m l IH]; simpl; [reflexivity|].
  destruct (p (proj m)); simpl; unfold Pd.sum in *; simpl; now rewrite IH.
Qed.

(** The per-date totals read nothing but the date label and the value
    of a melted row. *)
Lemma date_totals_pairs (ms ms' : list Melted) :
  map melted_pair ms' = map melted_pair ms ->
  date_totals to_numeric to_datetime ms'
  = date_totals to_numeric to_datetime ms.
Proof.
  intros Hp. rewrite !date_totals_eq.
  assert (Hk : melted_keys to_datetime ms' = melted_keys to_datetime ms).
  { unfold melted_keys. f_equal. f_equal.
    change (melted_date to_datetime)
      with (fun m => to_datetime (fst (melted_pair m))).
    rewrite <- !(map_map melted_pair (fun q => to_datetime (fst q))).
    now rewrite Hp. }
  rewrite Hk. apply map_ext. intros d. f_equal.
  unfold melted_total, Pd.members, melted_date.
  pose proof (fun l => sum_filter_through melted_pair
                (fun q => num to_numeric (snd q))
                (fun q => match to_datetime (fst q) with
                          | Some k' => d =? k'
                          | None => false
                          end) l) as E.
  cbn [melted_pair fst snd] in E.
  now rewrite !E, Hp.
Qed.

Lemma same_cells (rs rs' : list (list string)) (idx : list (nat * string))
  (j : nat) (c : string) :
  map (fun r => map (fun jc => cell (fst jc) r) idx) rs'
  = map (fun r => map (fun jc => cell (fst jc) r) idx) rs ->
  In (j, c) idx ->
  map (cell j) rs' = map (cell j) rs.
Proof.
  revert rs. induction rs' as [|r' rs' IH]; intros [|r rs] H Hin;
    simpl in *; try discriminate; [reflexivity|].
  injection H as Hr Hrs. f_equal.
  - exact (ext_in_map Hr (j, c) Hin).
  - now apply IH.
Qed.

Lemma melt_same_date_cells (df df' : Frame) (ms : list Melted) :
  same_date_cells df df' -> melt df = Ok ms ->
  exists ms', melt df' = Ok ms' /\ map melted_pair ms' = map melted_pair ms.
Proof.
  intros [Hcols Hcells] Hm. pose proof (melt_inv df ms Hm) as Hms.
  assert (Hm' : exists ms', melt df' = Ok ms').
  { unfold melt in *. rewrite Hcols.
    destruct (Py.mem "cases" (columns df) || Py.mem "date_str" (columns df));
      [discriminate|eexists; reflexivity]. }
  destruct Hm' as [ms' Hm']. exists ms'. split; [exact Hm'|].
  pose proof (melt_inv df' ms' Hm') as Hms'. rewrite Hcols in Hms'.
  subst ms ms'.
  clear Hm Hm'. set (whole := indexed (columns df)).
  assert (Hsub : forall jc, In jc whole -> In jc (indexed (columns df)))
    by auto.
  clearbody whole.
  induction whole as [|[j c] l IH]; [reflexivity|].
  simpl. rewrite !map_app. rewrite IH by (intros; apply Hsub; now right).
  f_equal. destruct (is_date_pattern c) eqn:E; [|reflexivity].
  rewrite !map_map. unfold melted_pair. simpl.
  rewrite <- !(map_map (cell j) (fun v => (c, v))). f_equal.
  apply (same_cells _ _ (filter (fun jc => is_date_pattern (snd jc))
                                (indexed (columns df))) j c).
  - exact Hcells.
  - apply filter_In. split; [apply Hsub; now left|exact E].
Qed.

(** The wide branch reads the key columns' labels only. *)
Lemma load_data_same_date_cells (df df' : Frame) :
  is_wide (columns df) = true -> same_date_cells df df' ->
  load_data to_numeric to_datetime df'
  = load_data to_numeric to_datetime df.
Proof.
  intros Hw Hs. unfold load_data. destruct Hs as [Hcols Hcells].
  rewrite Hcols, Hw. f_equal. unfold load_wide.
  destruct (melt df) as [ms|e] eqn:Hm.
  - destruct (melt_same_date_cells df df' ms (conj Hcols Hcells) Hm)
      as [ms' [Hm' Hp]].
    rewrite Hm'. simpl.
    now rewrite (date_totals_pairs ms ms' Hp).
  - unfold melt in *. rewrite Hcols.
    destruct (Py.mem "cases" (columns df) || Py.mem "date_str" (columns df));
      [simpl; congruence|discriminate].
Qed.
End KeyColumns.

(** C10.  On the wide-format branch every row of the result has deaths 0
    and recovered 0, whatever the input frame holds: the columns that are
    not date-like serve as keys of [melt] only, and a frame that differs
    in their cells alone gives the same table. *)
Theorem wide_deaths_recovered_zero
  (to_numeric to_datetime : string -> option Z) (df : Frame) (t : Table) :
  is_wide (columns df) = true ->
  load_data to_numeric to_datetime df = Ok t ->
  (forall r, In r t -> deaths r = 0 /\ recovered r = 0)
  /\ (forall df', same_date_cells df df' ->
                  load_data to_numeric to_datetime df' = Ok t).
Proof.
  intros Hw H.
  destruct (load_data_wide to_numeric to_datetime df t Hw H)
    as [_ [_ [_ Hz]]].
  split.
  - rewrite Forall_forall in Hz. exact Hz.
  - intros df' Hs. rewrite <- H.
    now apply load_data_same_date_cells.
Qed.

(** ** The long-format branch *)

Lemma mem_In (x : string) (l : list string) : Py.mem x l = true <-> In x l.
Proof. apply (existsb_eqb String.eqb String.eqb_eq). Qed.

Lemma mem_not_In (x : string) (l : list string) :
  Py.mem x l = false <-> ~ In x l.
Proof.
  rewrite <- mem_In. destruct (Py.mem x l); split; congruence.
Qed.


Section LongFacts.
Variable to_numeric : string -> option Z.
Variable to_datetime : string -> option Z.


(** [dropna] keeps, in frame order, the rows whose date and cases both
    parse. *)
Lemma dropna_dates {R} (fd fc : R -> option Z) (rws : list R)
  (x r : list Z) :
  List.length x = List.length rws -> List.length r = List.length rws ->
  map date (dropna (map fd rws) (map fc rws) x r)
  = Pd.present (map (fun row => match fd row, fc row with
                                | Some d, Some _ => Some d
                                | _, _ => None
                                end) rws).
Proof.
  revert x r. induction rws as [|row rws IH]; intros [|x0 x] [|r0 r] Hx Hr;
    simpl in *; try discriminate; [reflexivity|].
  destruct (fd row) as [d|]; [destruct (fc row) as [c|]|]; simpl;
    rewrite IH by lia; reflexivity.
Qed.


End LongFacts.

(** ** C6: a long-format frame without its required columns *)

Lemma load_long_missing (to_numeric to_datetime : string -> option Z)
  (df : Frame) :
  missing_cols df <> [] ->
  load_long to_numeric to_datetime df
  = Err (ValueError (missing_message (missing_cols df) (normalized_cols df))).
Proof.
  unfold load_long, missing_cols, normalized_cols.
  destruct (filter _ ["date"; "cases"]); [congruence|reflexivity].
Qed.

Lemma in_missing_cols (df : Frame) (c : string) :
  In c (missing_cols df)
  <-> (c = "date" \/ c = "cases") /\ ~ In c (normalized_cols df).
Proof.
  unfold missing_cols. rewrite filter_In, negb_true_iff, mem_not_In.
  simpl. intuition auto.
Qed.

Lemma no_date_pattern_not_wide (cols : list string) :
  date_pattern_cols cols = [] -> is_wide cols = false.
Proof.
  unfold is_wide. now intros ->.
Qed.

(** C6.  For every frame with ASCII labels, none of them date-like, that
    lacks 'date' or 'cases' after lower-casing and stripping the labels,
    [load_data] raises the ValueError whose message lists, after "Missing
    required columns: ", exactly the required labels that are absent. *)
Theorem missing_columns_rejected
  (to_numeric to_datetime : string -> option Z) (df : Frame) :
  ascii_labels df ->
  date_pattern_cols (columns df) = [] ->
  ~ In "date" (normalized_cols df) \/ ~ In "cases" (normalized_cols df) ->
  load_data to_numeric to_datetime df
  = Err (ValueError ("Missing required columns: "
                     ++ Py.join ", " (missing_cols df)
                     ++ ". Found columns: "
                     ++ Py.join ", " (firstn 10 (normalized_cols df))
                     ++ "..."))
  /\ (forall c, In c (missing_cols df)
                <-> (c = "date" \/ c = "cases")
                    /\ ~ In c (normalized_cols df)).
Proof.
  intros _ Hnd Hmiss. split; [|apply in_missing_cols].
  unfold load_data. rewrite (no_date_pattern_not_wide _ Hnd).
  rewrite load_long_missing; [reflexivity|].
  intros Hnil.
  destruct Hmiss as [H|H];
    [assert (Hin : In "date" (missing_cols df))
    |assert (Hin : In "cases" (missing_cols df))];
    try (apply in_missing_cols; split; [auto|exact H]);
    rewrite Hnil in Hin; destruct Hin.
Qed.

(** At Date,Deaths the message names 'cases' and nothing else. *)
Lemma missing_columns_rejected_witness :
  Sample.load Sample.long_no_cases
  = Err (ValueError
           "Missing required columns: cases. Found columns: date, deaths...").
Proof.
  destruct (missing_columns_rejected Parse.integer Parse.iso_date
              Sample.long_no_cases) as [H _].
  - repeat constructor.
  - reflexivity.
  - right. vm_compute. intros [E|[E|[]]]; discriminate.
  - unfold Sample.load. rewrite H. vm_compute. reflexivity.
Defined.

(** ** C1: what load_data guarantees of its result *)




(** *** The counts stay in range *)





Section CountsInRange.
Variable to_numeric : string -> option Z.
Variable to_datetime : string -> option Z.







End CountsInRange.





(** ** C4, C5, C10 on the samples *)





(** Two frames that differ in the key columns only: region and deaths. *)
Lemma wide_flat_same_date_cells :
  same_date_cells Sample.wide_flat
    {| columns := columns Sample.wide_flat;
       rows := [["X"; "0"; "4"; "5"]; ["Y"; "1000"; "3"; "x"]] |}.
Proof. split; reflexivity. Defined.

(** At region,deaths,2020-01-01,2020-01-02 the deaths 9 and 7 of the
    input leave no trace: the result has deaths 0, and is the same for
    the deaths 0 and 1000. *)
Lemma wide_deaths_recovered_zero_witness :
  Sample.load Sample.wide_flat = Ok [mk_row 18262 7 0 0; mk_row 18263 5 0 0]
  /\ (forall r, In r [mk_row 18262 7 0 0; mk_row 18263 5 0 0] ->
                deaths r = 0 /\ recovered r = 0)
  /\ Sample.load {| columns := columns Sample.wide_flat;
                    rows := [["X"; "0"; "4"; "5"]; ["Y"; "1000"; "3"; "x"]] |}
     = Ok [mk_row 18262 7 0 0; mk_row 18263 5 0 0].
Proof.
  split; [reflexivity|].
  destruct (wide_deaths_recovered_zero Parse.integer Parse.iso_date
              Sample.wide_flat [mk_row 18262 7 0 0; mk_row 18263 5 0 0]
              eq_refl eq_refl) as [Hzero Hsame].
  split; [exact Hzero|].
  exact (Hsame _ wide_flat_same_date_cells).
Defined.

(** ** Truncation toward zero *)

Lemma Int_part_floor (x : R) (n : Z) :
  (IZR n <= x)%R -> (x < IZR n + 1)%R -> Int_part x = n.
Proof.
  intros Hlo Hhi. symmetry. apply Int_part_spec. lra.
Qed.



Lemma trunc_floor (x : R) (n : Z) :
  (IZR n <= x)%R -> (x < IZR n + 1)%R -> 0 <= n -> trunc x = n.
Proof.
  intros Hlo Hhi Hn. unfold trunc.
  destruct (Rle_dec 0 x) as [_|Hneg].
  - now apply Int_part_floor.
  - exfalso. apply Hneg. apply IZR_le in Hn. lra.
Qed.

Lemma trunc_below (x : R) (n : Z) :
  (x <= IZR n)%R -> n < 0 -> trunc x <= n.
Proof.
  intros Hx Hn. unfold trunc.
  assert (Hn' : (IZR n < 0)%R) by now apply IZR_lt.
  destruct (Rle_dec 0 x) as [H0|_]; [lra|].
  destruct (base_Int_part (- x)) as [_ Hgt].
  assert (Hlt : (IZR (- n - 1) < IZR (Int_part (- x)))%R).
  { rewrite minus_IZR, opp_IZR. lra. }
  apply lt_IZR in Hlt. lia.
Qed.

(** ** Bounds on the sine *)

Lemma PI_bounds : (3 < PI <= 4)%R.
Proof.
  split; [|apply PI_4]. pose proof PI2_3_2. lra.
Qed.

Lemma sin_ge_quarter (y : R) :
  (PI / 4 <= y <= 3 * (PI / 4))%R -> (sin (PI / 4) <= sin y)%R.
Proof.
  intros [Hlo Hhi]. pose proof PI_bounds as [HP _].
  destruct (Rle_dec y (PI / 2)) as [Hy|Hy].
  - apply sin_incr_1; lra.
  - rewrite <- (sin_PI_x y). apply sin_incr_1; lra.
Qed.

Lemma inv_sqrt2_bound : (7 / 10 <= 1 / sqrt 2)%R.
Proof.
  assert (H2 : (0 <= 2)%R) by lra.
  pose proof (sqrt_def 2 H2) as Hd.
  assert (Hs : (0 < sqrt 2)%R) by (apply sqrt_lt_R0; lra).
  assert (Hle : (sqrt 2 <= 10 / 7)%R) by nra.
  unfold Rdiv. rewrite Rmult_1_l.
  apply Rmult_le_reg_r with (sqrt 2); [exact Hs|].
  rewrite Rinv_l by lra. lra.
Qed.

Lemma sin_5_bound : (sin 5 <= - (7 / 10))%R.
Proof.
  pose proof PI_bounds as [HP3 HP4].
  replace 5%R with ((5 - PI) + PI)%R by lra. rewrite neg_sin.
  assert (H : (sin (PI / 4) <= sin (5 - PI))%R)
    by (apply sin_ge_quarter; lra).
  rewrite sin_PI4 in H. pose proof inv_sqrt2_bound. lra.
Qed.


Lemma sin_factor_pos (x : R) : (95 / 100 <= 1 + 0.05 * sin x)%R.
Proof.
  pose proof (SIN_bound x) as [Hlo _]. lra.
Qed.

(** ** C7, C8: create_sample_data *)

(** C7.  [create_sample_data] returns a table for every outcome of the
    request: the one derived from the response when the body of the [try]
    completes, the synthetic one as soon as anything in it raises; a
    timeout, an unreachable host, an HTTP error status and a body that is
    not JSON all end in the synthetic table. *)
Theorem create_sample_data_never_raises
  (to_datetime : string -> option Z) (rc rd rr : nat -> Z) :
  (forall resp,
      exists t,
        create_sample_data to_datetime resp rc rd rr = Ok t
        /\ (live to_datetime resp = Ok t
            \/ (exists e, live to_datetime resp = Err e)
               /\ t = fallback rc rd rr))
  /\ create_sample_data to_datetime TimedOut rc rd rr = Ok (fallback rc rd rr)
  /\ create_sample_data to_datetime Unreachable rc rd rr
     = Ok (fallback rc rd rr)
  /\ (forall status body,
         400 <= status < 600 ->
         create_sample_data to_datetime (Response status body) rc rd rr
         = Ok (fallback rc rd rr))
  /\ (forall status,
         create_sample_data to_datetime (Response status None) rc rd rr
         = Ok (fallback rc rd rr)).
Proof.
  split; [|split; [reflexivity|split; [reflexivity|split]]].
  - intros resp. unfold create_sample_data.
    destruct (live to_datetime resp) as [t|e] eqn:E.
    + exists t. split; [reflexivity|now left].
    + exists (fallback rc rd rr). split; [reflexivity|].
      right. split; [now exists e|reflexivity].
  - intros status body [Hlo Hhi]. unfold create_sample_data, live.
    apply Z.leb_le in Hlo. apply Z.ltb_lt in Hhi. now rewrite Hlo, Hhi.
  - intros status. unfold create_sample_data, live.
    now destruct ((400 <=? status) && (status <? 600)).
Qed.

Lemma fallback_length (rc rd rr : nat -> Z) :
  List.length (fallback rc rd rr) = 1461%nat.
Proof.
  unfold fallback. rewrite length_map, length_seq. reflexivity.
Qed.

Lemma fallback_dates_of (rc rd rr : nat -> Z) :
  map date (fallback rc rd rr) = fallback_dates.
Proof.
  unfold fallback, fallback_dates, date_range. rewrite map_map. simpl date.
  rewrite length_map, length_seq. reflexivity.
Qed.

(** C8, at the failing input: the request times out and
    [np.random.randint(100, 1000, 1461)] draws 100 at position 50.  The
    table has its 1461 rows, one per day from 2020-01-01 to 2023-12-31,
    and the row of 2020-02-20 (position 50) carries negative cases:
    100 + 200 * sin 5 is below -40. *)
Theorem fallback_negative_cases
  (to_datetime : string -> option Z) (rc rd rr : nat -> Z) :
  rc 50%nat = 100 ->
  exists t r,
    create_sample_data to_datetime TimedOut rc rd rr = Ok t
    /\ List.length t = 1461%nat
    /\ map date t = date_range (Calendar.days_from_civil 2020 1 1) 1461
    /\ nth_error t 50 = Some r
    /\ date r = Calendar.days_from_civil 2020 2 20
    /\ cases r <= -40.
Proof.
  intros Hdraw.
  exists (fallback rc rd rr).
  exists (mk_row (fallback_start + 50)
                 (trunc (fallback_cases (rc 50%nat) 50))
                 (trunc (fallback_cases (rc 50%nat) 50 * 0.02
                         + IZR (rd 50%nat))%R)
                 (trunc (fallback_cases (rc 50%nat) 50 * 0.8
                         + IZR (rr 50%nat))%R)).
  split; [reflexivity|]. split; [apply fallback_length|].
  split; [apply fallback_dates_of|].
  split; [|split; [reflexivity|]].
  - unfold fallback. rewrite nth_error_map.
    replace (List.length fallback_dates) with 1461%nat by reflexivity.
    rewrite nth_error_seq.
    replace (50 <? 1461)%nat with true by reflexivity. reflexivity.
  - simpl cases. apply trunc_below; [|lia].
    unfold fallback_cases. rewrite Hdraw.
    replace (INR 50 * 0.1)%R with 5%R.
    + pose proof sin_5_bound. lra.
    + change 50%nat with (Z.to_nat 50). rewrite INR_IZR_INZ.
      rewrite Z2Nat.id by lia. lra.
Qed.

(** The draw 100 at position 50, and 500 everywhere else. *)
Lemma fallback_negative_cases_witness :
  exists t r,
    create_sample_data Parse.iso_date TimedOut
      (fun k => if (k =? 50)%nat then 100 else 500)
      (fun _ => 0) (fun _ => 0) = Ok t
    /\ List.length t = 1461%nat
    /\ map date t = date_range (Calendar.days_from_civil 2020 1 1) 1461
    /\ nth_error t 50 = Some r
    /\ date r = Calendar.days_from_civil 2020 2 20
    /\ cases r <= -40.
Proof.
  apply (fallback_negative_cases Parse.iso_date
           (fun k => if (k =? 50)%nat then 100 else 500)
           (fun _ => 0) (fun _ => 0)).
  reflexivity.
Defined.

(** ** C2, C3: predict_cases *)

Lemma maximum_ge (l : list Z) (a : Z) :
  a <= Pd.maximum a l /\ forall x, In x l -> x <= Pd.maximum a l.
Proof.
  unfold Pd.maximum. revert a. induction l as [|y l IH]; simpl; intros a.
  - split; [lia|intros x []].
  - destruct (IH (Z.max a y)) as [H1 H2]. split; [lia|].
    intros x [<-|Hx]; [lia|now apply H2].
Qed.




Lemma combine_map_seq {A B} (f : nat -> A) (g : nat -> B) (l : list nat) :
  combine (map f l) (map g l) = map (fun i => (f i, g i)) l.
Proof.
  induction l as [|i l IH]; simpl; [reflexivity|]. now rewrite IH.
Qed.

(** The forecast, record by record. *)
Lemma predict_cases_eq (df : Table) (days : nat) :
  (7 <= List.length df)%nat ->
  predict_cases df days
  = Some (map (fun i => (max_date df + 1 + Z.of_nat i,
                         trunc (pred (last_week_avg df) i)))
              (seq 0 days)).
Proof.
  intros Hlen. unfold predict_cases, date_range.
  destruct (Nat.ltb_spec (List.length df) 7) as [Hlt|_]; [lia|].
  now rewrite combine_map_seq.
Qed.



Lemma pred_nonneg (avg : R) (i : nat) : (0 <= avg)%R -> (0 <= pred avg i)%R.
Proof.
  intros H. unfold pred. pose proof (sin_factor_pos (INR i * 0.1)).
  apply Rmult_le_pos; lra.
Qed.








(** ** The worked example of the specification *)

(** date,cases with the rows 2021-01-01,100 and 2021-01-02,150 loads
    into two records, too few for a forecast; the total is 250 and the
    peak 150. *)
Example two_days :
  Sample.load Sample.long_two_days
  = Ok [mk_row 18628 100 0 0; mk_row 18629 150 0 0]
  /\ predict_cases [mk_row 18628 100 0 0; mk_row 18629 150 0 0] 30 = None
  /\ map total (year_stats [mk_row 18628 100 0 0; mk_row 18629 150 0 0])
     = [250]
  /\ map peak (year_stats [mk_row 18628 100 0 0; mk_row 18629 150 0 0])
     = [150].
Proof. repeat split; reflexivity. Qed.

(** * Further properties of the code *)

(** ** load_data on a long-format frame: errors and rows *)

Lemma index_of_mem (name : string) (cols : list string) :
  Py.mem name cols
  = match index_of name cols with Some _ => true | None => false end.
Proof.
  unfold Py.mem. induction cols as [|c cols IH]; simpl; [reflexivity|].
  destruct (String.eqb name c); simpl; [reflexivity|].
  rewrite IH. now destruct (index_of name cols).
Qed.

Lemma series_unique (name : string) (cols : list string)
  (rws : list (list string)) (j : nat) :
  index_of name cols = Some j -> at_most_once name cols ->
  series name cols rws = Ok (map (cell j) rws).
Proof.
  unfold series, at_most_once. intros -> Hocc.
  destruct (Nat.ltb_spec 1 (count_occ string_dec cols name)); [lia|].
  reflexivity.
Qed.

Lemma all_none_forall {A B} (f : A -> option B) (l : list A) :
  all_none (map f l) = true <-> forall x, In x l -> f x = None.
Proof.
  unfold all_none. rewrite forallb_forall. split.
  - intros H x Hx. specialize (H (f x) (in_map f l x Hx)).
    now destruct (f x).
  - intros H o Ho. apply in_map_iff in Ho. destruct Ho as [x [<- Hx]].
    now rewrite (H x Hx).
Qed.

Section LongOutcome.
Variable to_numeric : string -> option Z.
Variable to_datetime : string -> option Z.

Lemma optional_counts_unique (name : string) (cols : list string)
  (rws : list (list string)) :
  at_most_once name cols ->
  optional_counts to_numeric name cols rws
  = Ok (map (opt_num to_numeric (index_of name cols)) rws).
Proof.
  intros Hocc. unfold optional_counts. rewrite index_of_mem.
  destruct (index_of name cols) as [j|] eqn:Hj.
  - rewrite (series_unique name cols rws j Hj Hocc). simpl.
    now rewrite map_map.
  - reflexivity.
Qed.

Lemma dropna_long_rows (jd jc : nat) (jx jr : option nat)
  (rws : list (list string)) :
  dropna (map (fun row => to_datetime (cell jd row)) rws)
         (map (fun row => to_numeric (cell jc row)) rws)
         (map (opt_num to_numeric jx) rws)
         (map (opt_num to_numeric jr) rws)
  = long_rows to_numeric to_datetime jd jc jx jr rws.
Proof.
  unfold long_rows. induction rws as [|row rws IH]; simpl; [reflexivity|].
  unfold long_row at 1.
  destruct (to_datetime (cell jd row)); [|exact IH].
  destruct (to_numeric (cell jc row)); [|exact IH].
  simpl. now rewrite IH.
Qed.

(** The long branch on a frame whose four labels are not ambiguous. *)
Lemma load_long_eq (df : Frame) (jd jc : nat) :
  index_of "date" (normalized_cols df) = Some jd ->
  index_of "cases" (normalized_cols df) = Some jc ->
  at_most_once "date" (normalized_cols df) ->
  at_most_once "cases" (normalized_cols df) ->
  at_most_once "deaths" (normalized_cols df) ->
  at_most_once "recovered" (normalized_cols df) ->
  load_long to_numeric to_datetime df
  = if all_none (map (fun row => to_datetime (cell jd row)) (rows df))
    then Err (ValueError bad_date_message)
    else if all_none (map (fun row => to_numeric (cell jc row)) (rows df))
         then Err (ValueError bad_cases_message)
         else Ok (long_rows to_numeric to_datetime jd jc
                            (index_of "deaths" (normalized_cols df))
                            (index_of "recovered" (normalized_cols df))
                            (rows df)).
Proof.
  intros Hjd Hjc Hd Hc Hx Hr. unfold load_long.
  change (map (fun c => Py.strip (Py.lower c)) (columns df))
    with (normalized_cols df).
  assert (Hmd : Py.mem "date" (normalized_cols df) = true)
    by (rewrite index_of_mem, Hjd; reflexivity).
  assert (Hmc : Py.mem "cases" (normalized_cols df) = true)
    by (rewrite index_of_mem, Hjc; reflexivity).
  simpl filter. rewrite Hmd, Hmc. simpl.
  rewrite (series_unique _ _ _ jd Hjd Hd). simpl. rewrite map_map.
  destruct (all_none _); [reflexivity|].
  rewrite (series_unique _ _ _ jc Hjc Hc). simpl. rewrite map_map.
  destruct (all_none _); [reflexivity|].
  rewrite (optional_counts_unique _ _ _ Hx). simpl.
  rewrite (optional_counts_unique _ _ _ Hr). simpl.
  now rewrite dropna_long_rows.
Qed.
End LongOutcome.

Section LongTheorems.
Variable to_numeric : string -> option Z.
Variable to_datetime : string -> option Z.

Lemma long_rows_nonempty (jd jc : nat) (jx jr : option nat)
  (rws : list (list string)) :
  long_rows to_numeric to_datetime jd jc jx jr rws <> [] <->
  exists row, In row rws
              /\ to_datetime (cell jd row) <> None
              /\ to_numeric (cell jc row) <> None.
Proof.
  unfold long_rows. split.
  - intros Hne.
    destruct (flat_map _ rws) as [|r t] eqn:E; [congruence|].
    assert (Hin : In r (flat_map (long_row to_numeric to_datetime
                                           jd jc jx jr) rws))
      by (rewrite E; now left).
    apply in_flat_map in Hin. destruct Hin as [row [Hrow Hr]].
    exists row. split; [exact Hrow|]. unfold long_row in Hr.
    destruct (to_datetime (cell jd row)); [|destruct Hr].
    destruct (to_numeric (cell jc row)); [|destruct Hr].
    split; discriminate.
  - intros [row [Hrow [Hd Hc]]] Hnil.
    assert (Hin : In (mk_row
                        (match to_datetime (cell jd row) with
                         | Some d => d | None => 0 end)
                        (match to_numeric (cell jc row) with
                         | Some c => c | None => 0 end)
                        (opt_num to_numeric jx row)
                        (opt_num to_numeric jr row))
                     (flat_map (long_row to_numeric to_datetime jd jc jx jr)
                               rws)).
    { apply in_flat_map. exists row. split; [exact Hrow|].
      unfold long_row.
      destruct (to_datetime (cell jd row)); [|congruence].
      destruct (to_numeric (cell jc row)); [|congruence].
      now left. }
    rewrite Hnil in Hin. destruct Hin.
Qed.
End LongTheorems.

(** X1.  On a long-format frame with ASCII labels that has its date and
    cases columns (each of the four labels at most once): if no date
    parses, in particular
    if the frame has no row, [load_data] raises "Could not parse date
    column..."; otherwise, if no cases cell is a number, it raises "Could
    not parse cases column..."; otherwise, if every row lacks one of the
    two, it raises "No valid data rows found after cleaning". *)
Theorem long_path_errors
  (to_numeric to_datetime : string -> option Z) (df : Frame) (jd jc : nat) :
  ascii_labels df ->
  is_wide (columns df) = false ->
  index_of "date" (normalized_cols df) = Some jd ->
  index_of "cases" (normalized_cols df) = Some jc ->
  at_most_once "date" (normalized_cols df) ->
  at_most_once "cases" (normalized_cols df) ->
  at_most_once "deaths" (normalized_cols df) ->
  at_most_once "recovered" (normalized_cols df) ->
  let no_date :=
    forall row, In row (rows df) -> to_datetime (cell jd row) = None in
  let no_cases :=
    forall row, In row (rows df) -> to_numeric (cell jc row) = None in
  (no_date ->
   load_data to_numeric to_datetime df = Err (ValueError bad_date_message))
  /\ (~ no_date -> no_cases ->
      load_data to_numeric to_datetime df
      = Err (ValueError bad_cases_message))
  /\ (~ no_date -> ~ no_cases ->
      (forall row, In row (rows df) ->
                   to_datetime (cell jd row) = None
                   \/ to_numeric (cell jc row) = None) ->
      load_data to_numeric to_datetime df = Err (ValueError empty_message)).
Proof.
  intros _ Hw Hjd Hjc Hd Hc Hx Hr no_date no_cases.
  unfold load_data. rewrite Hw.
  rewrite (load_long_eq to_numeric to_datetime df jd jc Hjd Hjc Hd Hc Hx Hr).
  pose proof (all_none_forall (fun row => to_datetime (cell jd row))
                              (rows df)) as Hdates.
  pose proof (all_none_forall (fun row => to_numeric (cell jc row))
                              (rows df)) as Hcases.
  simpl in Hdates, Hcases. unfold no_date, no_cases.
  destruct (all_none (map (fun row => to_datetime (cell jd row)) (rows df))).
  { split; [reflexivity|].
    split; intros Hnd; exfalso; apply Hnd; apply (proj1 Hdates);
      reflexivity. }
  split; [intros Hnd; apply (proj2 Hdates) in Hnd; discriminate|].
  destruct (all_none (map (fun row => to_numeric (cell jc row)) (rows df))).
  { split; [reflexivity|].
    intros _ Hnc. exfalso. apply Hnc. apply (proj1 Hcases). reflexivity. }
  split; [intros _ Hnc; apply (proj2 Hcases) in Hnc; discriminate|].
  intros _ _ Hrows. simpl.
  destruct (long_rows to_numeric to_datetime jd jc _ _ (rows df))
    as [|r t] eqn:E; [reflexivity|].
  exfalso.
  assert (Hne : long_rows to_numeric to_datetime jd jc
                  (index_of "deaths" (normalized_cols df))
                  (index_of "recovered" (normalized_cols df)) (rows df)
                <> []) by (rewrite E; discriminate).
  apply long_rows_nonempty in Hne. destruct Hne as [row [Hrow [H1 H2]]].
  destruct (Hrows row Hrow); contradiction.
Qed.

(** X2.  On such a frame, with integer cells whose weight stays below
    2^53 / 10, [load_data] returns a table exactly when some
    row has a date and a cases cell that both parse, and the table then
    holds, in input order, one record per such row: its parsed date and
    cases, and for deaths and recovered the number in the cell, 0 when
    the cell is not a number or the frame has no such column. *)
Theorem long_path_rows
  (to_numeric to_datetime : string -> option Z) (df : Frame) (jd jc : nat) :
  ascii_labels df ->
  in_range to_numeric df ->
  is_wide (columns df) = false ->
  index_of "date" (normalized_cols df) = Some jd ->
  index_of "cases" (normalized_cols df) = Some jc ->
  at_most_once "date" (normalized_cols df) ->
  at_most_once "cases" (normalized_cols df) ->
  at_most_once "deaths" (normalized_cols df) ->
  at_most_once "recovered" (normalized_cols df) ->
  let kept :=
    long_rows to_numeric to_datetime jd jc
              (index_of "deaths" (normalized_cols df))
              (index_of "recovered" (normalized_cols df)) (rows df) in
  (forall t, load_data to_numeric to_datetime df = Ok t -> t = kept)
  /\ ((exists row, In row (rows df)
                   /\ to_datetime (cell jd row) <> None
                   /\ to_numeric (cell jc row) <> None)
      <-> load_data to_numeric to_datetime df = Ok kept).
Proof.
  intros _ _ Hw Hjd Hjc Hd Hc Hx Hr kept.
  unfold load_data. rewrite Hw.
  rewrite (load_long_eq to_numeric to_datetime df jd jc Hjd Hjc Hd Hc Hx Hr).
  fold kept.
  destruct (all_none (map (fun row => to_datetime (cell jd row)) (rows df)))
    eqn:Ed.
  { split; [intros t H; discriminate|]. split; [|intros H; discriminate].
    intros [row [Hrow [H1 _]]].
    pose proof (proj1 (all_none_forall _ _) Ed row Hrow) as E.
    simpl in E. congruence. }
  destruct (all_none (map (fun row => to_numeric (cell jc row)) (rows df)))
    eqn:Ec.
  { split; [intros t H; discriminate|]. split; [|intros H; discriminate].
    intros [row [Hrow [_ H2]]].
    pose proof (proj1 (all_none_forall _ _) Ec row Hrow) as E.
    simpl in E. congruence. }
  simpl. split.
  - intros t H. destruct kept; [discriminate|]. congruence.
  - rewrite <- (long_rows_nonempty to_numeric to_datetime jd jc
                  (index_of "deaths" (normalized_cols df))
                  (index_of "recovered" (normalized_cols df)) (rows df)).
    fold kept. destruct kept; split; intros H; congruence.
Qed.

Ltac count_labels := unfold at_most_once; vm_compute; lia.

Lemma demo_once :
  at_most_once "date" ["date"; "cases"; "deaths"]
  /\ at_most_once "cases" ["date"; "cases"; "deaths"]
  /\ at_most_once "deaths" ["date"; "cases"; "deaths"]
  /\ at_most_once "recovered" ["date"; "cases"; "deaths"].
Proof. repeat split; count_labels. Defined.

(** date,cases,deaths with the rows n/a,5,1 and soon,6,2: no date. *)
Lemma long_path_errors_witness :
  Sample.load Demo.long_bad_dates = Err (ValueError bad_date_message).
Proof.
  destruct (long_path_errors Parse.integer Parse.iso_date Demo.long_bad_dates
              0 1 ltac:(repeat constructor) eq_refl eq_refl eq_refl
              (proj1 demo_once) (proj1 (proj2 demo_once))
              (proj1 (proj2 (proj2 demo_once)))
              (proj2 (proj2 (proj2 demo_once))))
    as [Hdate _].
  apply Hdate. intros row Hrow. simpl in Hrow.
  destruct Hrow as [<-|[<-|[]]]; reflexivity.
Defined.

(** Date,Cases,Deaths with the rows 2021-01-01,5,x / bad,6,2 /
    2021-01-03,,4 / 2021-01-02,7,3: the first and the last row stay. *)
Lemma long_path_rows_witness :
  Sample.load Demo.long_mixed
  = Ok [mk_row 18628 5 0 0; mk_row 18629 7 3 0].
Proof.
  destruct (long_path_rows Parse.integer Parse.iso_date Demo.long_mixed
              0 1 ltac:(repeat constructor) ltac:(vm_compute; reflexivity)
              eq_refl eq_refl eq_refl
              (proj1 demo_once) (proj1 (proj2 demo_once))
              (proj1 (proj2 (proj2 demo_once)))
              (proj2 (proj2 (proj2 demo_once))))
    as [_ Hiff].
  apply Hiff. exists ["2021-01-01"; "5"; "x"].
  split; [now left|]. split; discriminate.
Defined.

(** ** load_data on a wide-format frame: the empty result *)

(** X3.  On a wide-format frame with ASCII labels, integer cells whose
    weight stays below 2^53 / 10 and no column labelled 'cases' or
    'date_str': [load_data] raises "No valid data rows found after
    cleaning" when the frame has no row or none of its date-like labels
    parses as a date, and returns a table otherwise. *)
Theorem wide_path_empty
  (to_numeric to_datetime : string -> option Z) (df : Frame) :
  ascii_labels df ->
  in_range to_numeric df ->
  is_wide (columns df) = true ->
  Py.mem "cases" (columns df) = false ->
  Py.mem "date_str" (columns df) = false ->
  ((rows df = []
    \/ (forall c, In c (date_pattern_cols (columns df)) ->
                  to_datetime c = None)) ->
   load_data to_numeric to_datetime df = Err (ValueError empty_message))
  /\ (rows df <> [] ->
      (exists c, In c (date_pattern_cols (columns df))
                 /\ to_datetime c <> None) ->
      exists t, load_data to_numeric to_datetime df = Ok t).
Proof.
  intros _ _ Hw Hc Hs.
  destruct (melt df) as [ms|e] eqn:Hm;
    [|unfold melt in Hm; rewrite Hc, Hs in Hm; discriminate].
  destruct (load_wide to_numeric to_datetime df) as [t|e] eqn:Hl;
    [|unfold load_wide in Hl; rewrite Hm in Hl; discriminate].
  pose proof (load_wide_inv to_numeric to_datetime df t Hl)
    as [ms' [Hm' [Hd _]]].
  rewrite Hm in Hm'. injection Hm' as <-.
  unfold load_data. rewrite Hw, Hl. simpl. split.
  - intros Hempty. destruct t as [|r t]; [reflexivity|]. exfalso.
    assert (Hin : In (date r) (melted_keys to_datetime ms))
      by (rewrite <- Hd; now left).
    destruct Hempty as [Hrows|Hnone].
    + rewrite (melt_no_rows df ms Hm Hrows) in Hin. destruct Hin.
    + destruct (rows df) as [|row rws] eqn:Er.
      * rewrite (melt_no_rows df ms Hm Er) in Hin. destruct Hin.
      * apply (melted_keys_columns to_datetime df ms (date r) Hm) in Hin;
          [|rewrite Er; discriminate].
        destruct Hin as [c [Hc' Hp]]. rewrite (Hnone c Hc') in Hp.
        discriminate.
  - intros Hrows [c [Hc' Hp]].
    destruct (to_datetime c) as [d|] eqn:Ec; [|congruence].
    assert (Hin : In d (melted_keys to_datetime ms)).
    { apply (melted_keys_columns to_datetime df ms d Hm Hrows).
      now exists c. }
    rewrite <- Hd in Hin. destruct t as [|r t]; [destruct Hin|].
    now exists (r :: t).
Qed.

(** region,Jan-1,Feb-2: the labels are date-like and are no dates. *)
Lemma wide_path_empty_witness :
  Sample.load Demo.wide_unparsed = Err (ValueError empty_message).
Proof.
  destruct (wide_path_empty Parse.integer Parse.iso_date Demo.wide_unparsed
              ltac:(repeat constructor) ltac:(vm_compute; reflexivity)
              eq_refl eq_refl eq_refl) as [Hempty _].
  apply Hempty. right. intros c Hc. simpl in Hc.
  destruct Hc as [<-|[<-|[]]]; reflexivity.
Defined.

(** ** create_sample_data: the table derived from the response *)

Lemma with_column_keep {B} (f : Row -> B) (set : Row -> Z -> Row)
  (df : Table) (c : list Z) :
  (forall r v, f (set r v) = f r) ->
  List.length c = List.length df ->
  map f (with_column set df c) = map f df.
Proof.
  intros Hf. unfold with_column. revert c.
  induction df as [|r df IH]; intros [|v c] Hlen; simpl in *;
    try discriminate; [reflexivity|].
  rewrite Hf, IH by lia. reflexivity.
Qed.

Lemma with_column_put (get : Row -> Z) (set : Row -> Z -> Row)
  (df : Table) (c : list Z) :
  (forall r v, get (set r v) = v) ->
  List.length c = List.length df ->
  map get (with_column set df c) = c.
Proof.
  intros Hg. unfold with_column. revert c.
  induction df as [|r df IH]; intros [|v c] Hlen; simpl in *;
    try discriminate; [reflexivity|].
  rewrite Hg, IH by lia. reflexivity.
Qed.

Lemma daily_inv (get : Row -> Z) (set : Row -> Z -> Row) (df df' : Table) :
  daily get set df = Ok df' ->
  df <> [] /\ df' = with_column set df (decumulate (map get df)).
Proof.
  unfold daily. destruct df as [|r df]; [discriminate|].
  intros H. injection H as <-. split; [discriminate|reflexivity].
Qed.

Lemma decumulate_map_length {A} (get : A -> Z) (df : list A) :
  List.length (decumulate (map get df)) = List.length df.
Proof. now rewrite decumulate_length, length_map. Qed.

Lemma insert_by_sorted {A} (key : A -> Z) (x : A) (l : list A) :
  Sorted (fun a b => key a <= key b) l ->
  Sorted (fun a b => key a <= key b) (Pd.insert_by Z.ltb key x l).
Proof.
  induction 1 as [|h t Ht IH Hh]; simpl.
  - repeat constructor.
  - destruct (Z.ltb_spec (key x) (key h)) as [Hlt|Hge].
    + constructor; [now constructor|]. constructor. lia.
    + constructor; [exact IH|].
      destruct t as [|h' t]; simpl.
      * constructor. exact Hge.
      * destruct (Z.ltb_spec (key x) (key h')); constructor;
          [exact Hge|]. now inversion Hh.
Qed.

(** [sort_values] leaves the keys in non-descending order. *)
Lemma sort_values_sorted_le {A} (key : A -> Z) (l : list A) :
  Sorted (fun a b => key a <= key b) (Pd.sort_values Z.ltb key l).
Proof.
  unfold Pd.sort_values. induction l as [|x l IH]; simpl;
    [constructor|now apply insert_by_sorted].
Qed.

Lemma sorted_map_key {A} (key : A -> Z) (l : list A) :
  Sorted (fun a b => key a <= key b) l -> Sorted Z.le (map key l).
Proof.
  induction 1 as [|h t Ht IH Hh]; simpl; constructor; [exact IH|].
  destruct Hh; simpl; constructor. assumption.
Qed.

Section LiveFacts.
Variable to_datetime : string -> option Z.

(** What the body of the [try] returns when it completes: the three
    columns of the date-sorted frame, each turned into clipped first
    differences. *)
Lemma live_inv (resp : http) (t : Table) :
  live to_datetime resp = Ok t ->
  exists df,
    df <> []
    /\ Sorted Z.le (map date df)
    /\ map date t = map date df
    /\ map cases t = decumulate (map cases df)
    /\ map deaths t = decumulate (map deaths df)
    /\ map recovered t = decumulate (map recovered df).
Proof.
  unfold live. destruct resp as [| |status body]; try discriminate.
  destruct ((400 <=? status) && (status <? 600)); [discriminate|].
  destruct body as [[data|]|]; try discriminate.
  destruct (items_of (dict_get "cases" data)) as [l|e]; [|discriminate].
  simpl. destruct (dated to_datetime l) as [dc|e]; [|discriminate]. simpl.
  destruct (join_counts to_datetime set_deaths _ _) as [df1|e];
    [|discriminate].
  simpl.
  destruct (join_counts to_datetime set_recovered _ _) as [df2|e];
    [|discriminate].
  simpl. set (df := Pd.sort_values Z.ltb date df2).
  destruct (daily cases set_cases df) as [d1|e] eqn:E1; [|discriminate].
  simpl. destruct (daily deaths set_deaths d1) as [d2|e] eqn:E2;
    [|discriminate].
  simpl. intros E3.
  apply daily_inv in E1. destruct E1 as [Hne ->].
  apply daily_inv in E2. destruct E2 as [_ ->].
  apply daily_inv in E3. destruct E3 as [_ ->].
  exists df. split; [exact Hne|].
  split; [apply sorted_map_key, sort_values_sorted_le|].
  set (c1 := decumulate (map cases df)).
  assert (L1 : List.length c1 = List.length df)
    by apply decumulate_map_length.
  set (t1 := with_column set_cases df c1).
  assert (Ht1 : List.length t1 = List.length df)
    by (rewrite <- (length_map date t1), <- (length_map date df);
        f_equal; now apply with_column_keep).
  set (c2 := decumulate (map deaths t1)).
  assert (L2 : List.length c2 = List.length t1)
    by apply decumulate_map_length.
  set (t2 := with_column set_deaths t1 c2).
  assert (Ht2 : List.length t2 = List.length t1)
    by (rewrite <- (length_map date t2), <- (length_map date t1);
        f_equal; now apply with_column_keep).
  set (c3 := decumulate (map recovered t2)).
  assert (L3 : List.length c3 = List.length t2)
    by apply decumulate_map_length.
  assert (D1 : map deaths t1 = map deaths df)
    by now apply with_column_keep.
  assert (R1 : map recovered t1 = map recovered df)
    by now apply with_column_keep.
  assert (R2 : map recovered t2 = map recovered t1)
    by now apply with_column_keep.
  assert (Hd1 : map date t1 = map date df) by now apply with_column_keep.
  assert (Hd2 : map date t2 = map date t1) by now apply with_column_keep.
  assert (Hd3 : map date (with_column set_recovered t2 c3) = map date t2)
    by now apply with_column_keep.
  assert (Hc1 : map cases t1 = c1) by now apply with_column_put.
  assert (Hc2 : map cases t2 = map cases t1) by now apply with_column_keep.
  assert (Hc3 : map cases (with_column set_recovered t2 c3) = map cases t2)
    by now apply with_column_keep.
  assert (Hx2 : map deaths t2 = c2) by now apply with_column_put.
  assert (Hx3 : map deaths (with_column set_recovered t2 c3)
                = map deaths t2) by now apply with_column_keep.
  assert (Hr3 : map recovered (with_column set_recovered t2 c3) = c3)
    by now apply with_column_put.
  repeat split.
  - now rewrite Hd3, Hd2, Hd1.
  - now rewrite Hc3, Hc2, Hc1.
  - rewrite Hx3, Hx2. unfold c2. now rewrite D1.
  - rewrite Hr3. unfold c3. now rewrite R2, R1.
Qed.
End LiveFacts.

(** X4.  Whenever the body of the [try] completes on a response with
    small counts, [create_sample_data] returns its table, and that table has at least one row, dates in
    non-descending order, and no negative cases, deaths or recovered. *)
Theorem live_table_sound
  (to_datetime : string -> option Z) (resp : http) (rc rd rr : nat -> Z)
  (t : Table) :
  small_response resp ->
  live to_datetime resp = Ok t ->
  create_sample_data to_datetime resp rc rd rr = Ok t
  /\ t <> []
  /\ Sorted Z.le (map date t)
  /\ nonneg_counts t.
Proof.
  intros _ H. split; [unfold create_sample_data; now rewrite H|].
  destruct (live_inv to_datetime resp t H)
    as [df [Hne [Hs [Hd [Hc [Hx Hr]]]]]].
  split; [|split].
  - intros ->. destruct df; [now apply Hne|discriminate].
  - now rewrite Hd.
  - pose proof (decumulate_nonneg (map cases df)) as Nc.
    pose proof (decumulate_nonneg (map deaths df)) as Nx.
    pose proof (decumulate_nonneg (map recovered df)) as Nr.
    rewrite <- Hc in Nc. rewrite <- Hx in Nx. rewrite <- Hr in Nr.
    rewrite Forall_forall in Nc, Nx, Nr.
    unfold nonneg_counts. apply Forall_forall. intros r Hin.
    repeat split; [apply Nc|apply Nx|apply Nr]; now apply in_map.
Qed.

(** {"cases": {"2020-01-02": 5, "2020-01-01": 3, "2020-01-03": 4},
    "deaths": {"2020-01-01": 1}}: the rows come out by date, with the
    increments 3, 2 and, for the drop from 5 to 4, 0. *)
Lemma live_table_sound_witness :
  create_sample_data Parse.iso_date Demo.partial_response
    (fun _ => 100) (fun _ => 0) (fun _ => 0)
  = Ok [mk_row 18262 3 1 0; mk_row 18263 2 0 0; mk_row 18264 0 0 0]
  /\ Sorted Z.le [18262; 18263; 18264]
  /\ nonneg_counts [mk_row 18262 3 1 0; mk_row 18263 2 0 0;
                    mk_row 18264 0 0 0].
Proof.
  destruct (live_table_sound Parse.iso_date Demo.partial_response
              (fun _ => 100) (fun _ => 0) (fun _ => 0)
              [mk_row 18262 3 1 0; mk_row 18263 2 0 0; mk_row 18264 0 0 0]
              ltac:(repeat split; repeat constructor) eq_refl)
    as [H1 [_ [H2 H3]]].
  split; [exact H1|]. split; [exact H2|exact H3].
Defined.

(** ** create_sample_data: payloads that end in the synthetic table *)

Section Rejected.
Variable to_datetime : string -> option Z.

Lemma dated_bad (l : list (string * Z)) (s : string) (v : Z) :
  In (s, v) l -> to_datetime s = None ->
  dated to_datetime l = Err PandasError.
Proof.
  induction l as [|[s' v'] l IH]; simpl; [intros []|].
  intros [Heq|Hin] Hnone.
  - injection Heq as -> ->. now rewrite Hnone.
  - destruct (to_datetime s'); [|reflexivity].
    now rewrite (IH Hin Hnone).
Qed.

Lemma join_counts_nil (set : Row -> Z -> Row) (v : json_value) :
  join_counts to_datetime set v [] = Ok []
  \/ exists e, join_counts to_datetime set v [] = Err e.
Proof.
  unfold join_counts. destruct (truthy_value v); [|now left].
  destruct (items_of v) as [l|e]; simpl; [|right; now exists e].
  destruct (dated to_datetime l) as [o|e]; simpl; [now left|].
  right. now exists e.
Qed.

Lemma live_no_cases (status : Z) (data : list (string * json_value)) :
  dict_get "cases" data = JDict [] ->
  exists e, live to_datetime (Response status (Some (JObject data))) = Err e.
Proof.
  intros Hc. unfold live.
  destruct ((400 <=? status) && (status <? 600)); [eexists; reflexivity|].
  rewrite Hc. simpl.
  destruct (join_counts_nil set_deaths (dict_get "deaths" data))
    as [->|[e ->]]; simpl; [|now exists e].
  destruct (join_counts_nil set_recovered (dict_get "recovered" data))
    as [->|[e ->]]; simpl; [|now exists e].
  now exists IndexError.
Qed.
End Rejected.

(** X5.  A response whose JSON is not an object, has no entry under
    'cases' (or an empty one, or one that is no object), or has under
    'cases' a key that does not parse as a date, makes
    [create_sample_data] return the synthetic table, whatever the status
    and the rest of the payload. *)
Theorem live_payload_rejected
  (to_datetime : string -> option Z) (status : Z) (body : json_doc)
  (rc rd rr : nat -> Z) :
  body = JNotObject
  \/ (exists data,
        body = JObject data
        /\ (dict_get "cases" data = JDict []
            \/ (exists b, dict_get "cases" data = JNotDict b)
            \/ (exists l s v, dict_get "cases" data = JDict l
                              /\ In (s, v) l /\ to_datetime s = None))) ->
  create_sample_data to_datetime (Response status (Some body)) rc rd rr
  = Ok (fallback rc rd rr).
Proof.
  intros H.
  assert (Herr : exists e,
             live to_datetime (Response status (Some body)) = Err e).
  { destruct H as [->|[data [-> H]]].
    - unfold live. destruct (_ && _); eexists; reflexivity.
    - destruct H as [H|[[b H]|[l [s [v [H [Hin Hnone]]]]]]].
      + now apply live_no_cases.
      + unfold live. destruct (_ && _); [eexists; reflexivity|].
        rewrite H. simpl. eexists; reflexivity.
      + unfold live. destruct (_ && _); [eexists; reflexivity|].
        rewrite H. simpl. rewrite (dated_bad to_datetime l s v Hin Hnone).
        simpl. eexists; reflexivity. }
  destruct Herr as [e He]. unfold create_sample_data. now rewrite He.
Qed.

(** {"deaths": {"2020-01-22": 1}} with status 200: no cases. *)
Lemma live_payload_rejected_witness :
  create_sample_data Parse.iso_date
    (Response 200 (Some (JObject Demo.no_cases_data)))
    (fun _ => 100) (fun _ => 0) (fun _ => 0)
  = Ok (fallback (fun _ => 100) (fun _ => 0) (fun _ => 0)).
Proof.
  apply (live_payload_rejected Parse.iso_date 200
           (JObject Demo.no_cases_data)).
  right. exists Demo.no_cases_data. split; [reflexivity|].
  left. reflexivity.
Defined.

(** ** create_sample_data: from cumulative series to daily counts *)

Lemma sorted_lt_nodup (l : list Z) : StronglySorted Z.lt l -> NoDup l.
Proof.
  induction 1 as [|x l Hl IH Hx]; constructor; [|exact IH].
  intros Hin. rewrite Forall_forall in Hx. specialize (Hx x Hin). lia.
Qed.

Lemma merge_left_aligned_from (set : Row -> Z -> Row) (df : Table)
  (vs : list Z) (pre : list (Z * Z)) :
  NoDup (map date df) -> List.length vs = List.length df ->
  (forall o, In o pre -> ~ In (fst o) (map date df)) ->
  merge_left set df (pre ++ combine (map date df) vs)%list
  = with_column set df vs.
Proof.
  unfold merge_left, with_column. revert vs pre.
  induction df as [|r df IH]; intros [|v vs] pre Hnd Hlen Hpre;
    simpl in *; try discriminate; [reflexivity|].
  inversion Hnd as [|? ? Hr Hnd']; subst.
  rewrite filter_app. simpl. rewrite Z.eqb_refl.
  rewrite (filter_const _ false pre).
  2:{ intros o Ho. apply Z.eqb_neq. intros Heq. apply (Hpre o Ho).
      now left. }
  rewrite (filter_const _ false (combine (map date df) vs)).
  2:{ intros o Ho. apply Z.eqb_neq. intros Heq. apply Hr.
      destruct o as [d w]. apply in_combine_l in Ho. simpl in Heq.
      now subst. }
  simpl. f_equal.
  specialize (IH vs (pre ++ [(date r, v)])%list Hnd').
  rewrite <- app_assoc in IH. simpl in IH. apply IH; [lia|].
  intros o Ho. apply in_app_or in Ho. destruct Ho as [Ho|[<-|[]]].
  - intros Hin. apply (Hpre o Ho). now right.
  - exact Hr.
Qed.

(** With one partner per row, in the order of the rows, the left merge
    writes the partners' values into the column. *)
Lemma merge_left_aligned (set : Row -> Z -> Row) (df : Table) (vs : list Z) :
  NoDup (map date df) -> List.length vs = List.length df ->
  merge_left set df (combine (map date df) vs) = with_column set df vs.
Proof.
  intros Hnd Hlen.
  apply (merge_left_aligned_from set df vs [] Hnd Hlen). intros o [].
Qed.

Lemma daily_ok (get : Row -> Z) (set : Row -> Z -> Row) (df : Table) :
  df <> [] ->
  daily get set df = Ok (with_column set df (decumulate (map get df))).
Proof.
  unfold daily. destruct df; [congruence|reflexivity].
Qed.

Lemma with_column_nonempty (set : Row -> Z -> Row) (get : Row -> Z)
  (df : Table) :
  df <> [] -> with_column set df (decumulate (map get df)) <> [].
Proof.
  intros Hne E.
  assert (L : List.length (with_column set df (decumulate (map get df)))
              = List.length df).
  { unfold with_column. rewrite length_map, length_combine,
      decumulate_map_length. lia. }
  rewrite E in L. destruct df; [now apply Hne|discriminate].
Qed.

(** The three [daily] steps on a frame with a row. *)
Lemma daily_steps (df : Table) :
  df <> [] ->
  exists t,
    (d1 <- daily cases set_cases df ;;
     d2 <- daily deaths set_deaths d1 ;;
     daily recovered set_recovered d2) = Ok t
    /\ map date t = map date df
    /\ map cases t = decumulate (map cases df)
    /\ map deaths t = decumulate (map deaths df)
    /\ map recovered t = decumulate (map recovered df).
Proof.
  intros Hne.
  pose proof (with_column_nonempty set_cases cases df Hne) as N1.
  pose proof (with_column_nonempty set_deaths deaths _ N1) as N2.
  pose proof (daily_ok cases set_cases df Hne) as E1.
  pose proof (daily_ok deaths set_deaths _ N1) as E2.
  pose proof (daily_ok recovered set_recovered _ N2) as E3.
  eexists. split.
  - rewrite E1. cbn [bind]. rewrite E2. cbn [bind]. exact E3.
  - set (c1 := decumulate (map cases df)) in *.
    set (t1 := with_column set_cases df c1) in *.
    set (c2 := decumulate (map deaths t1)) in *.
    set (t2 := with_column set_deaths t1 c2) in *.
    set (c3 := decumulate (map recovered t2)) in *.
    assert (L1 : List.length c1 = List.length df)
      by apply decumulate_map_length.
    assert (L2 : List.length c2 = List.length t1)
      by apply decumulate_map_length.
    assert (L3 : List.length c3 = List.length t2)
      by apply decumulate_map_length.
    assert (Hd1 : map date t1 = map date df) by now apply with_column_keep.
    assert (Hd2 : map date t2 = map date t1) by now apply with_column_keep.
    assert (Hd3 : map date (with_column set_recovered t2 c3) = map date t2)
      by now apply with_column_keep.
    assert (Hc1 : map cases t1 = c1) by now apply with_column_put.
    assert (Hc2 : map cases t2 = map cases t1) by now apply with_column_keep.
    assert (Hc3 : map cases (with_column set_recovered t2 c3) = map cases t2)
      by now apply with_column_keep.
    assert (D1 : map deaths t1 = map deaths df)
      by now apply with_column_keep.
    assert (Hx2 : map deaths t2 = c2) by now apply with_column_put.
    assert (Hx3 : map deaths (with_column set_recovered t2 c3)
                  = map deaths t2) by now apply with_column_keep.
    assert (R1 : map recovered t1 = map recovered df)
      by now apply with_column_keep.
    assert (R2 : map recovered t2 = map recovered t1)
      by now apply with_column_keep.
    assert (Hr3 : map recovered (with_column set_recovered t2 c3) = c3)
      by now apply with_column_put.
    repeat split.
    + now rewrite Hd3, Hd2, Hd1.
    + now rewrite Hc3, Hc2, Hc1.
    + rewrite Hx3, Hx2. unfold c2. now rewrite D1.
    + rewrite Hr3. unfold c3. now rewrite R2, R1.
Qed.

Section Aligned.
Variable to_datetime : string -> option Z.

Lemma dated_aligned (keys : list string) (ts vs : list Z) :
  map to_datetime keys = map Some ts ->
  List.length vs = List.length keys ->
  dated to_datetime (combine keys vs) = Ok (combine ts vs).
Proof.
  revert ts vs. induction keys as [|k keys IH]; intros [|t ts] [|v vs] Hk Hl;
    simpl in *; try discriminate; try reflexivity.
  injection Hk as Hk Hks. rewrite Hk.
  rewrite (IH ts vs Hks) by lia. reflexivity.
Qed.

Lemma join_counts_aligned (set : Row -> Z -> Row) (keys : list string)
  (vs : list Z) (df : Table) :
  keys <> [] ->
  map to_datetime keys = map Some (map date df) ->
  NoDup (map date df) ->
  List.length vs = List.length keys ->
  join_counts to_datetime set (JDict (combine keys vs)) df
  = Ok (with_column set df vs).
Proof.
  intros Hne Hk Hnd Hl. unfold join_counts.
  assert (Htrue : truthy_value (JDict (combine keys vs)) = true).
  { destruct keys as [|k keys]; [congruence|].
    destruct vs; [discriminate|reflexivity]. }
  rewrite Htrue. simpl.
  rewrite (dated_aligned keys (map date df) vs Hk Hl). simpl.
  rewrite merge_left_aligned; [reflexivity|exact Hnd|].
  rewrite Hl, <- (length_map to_datetime keys), Hk, !length_map.
  reflexivity.
Qed.
End Aligned.

(** X6.  When the response carries, under 'cases', 'deaths' and
    'recovered', three series of small counts over the same date keys and
    the keys parse
    to strictly ascending dates, [create_sample_data] returns one row per
    key, in that order, whose cases, deaths and recovered are the clipped
    first differences of the three series; and for each series that does
    not decrease and starts at a non-negative value, the running sum of
    the daily counts gives the series back. *)
Theorem live_daily_counts
  (to_datetime : string -> option Z) (status : Z)
  (data : list (string * json_value)) (keys : list string)
  (ts cs ds rs : list Z) (rc rd rr : nat -> Z) :
  small_counts cs -> small_counts ds -> small_counts rs ->
  status < 400 \/ 600 <= status ->
  keys <> [] ->
  map to_datetime keys = map Some ts ->
  StronglySorted Z.lt ts ->
  List.length cs = List.length keys ->
  List.length ds = List.length keys ->
  List.length rs = List.length keys ->
  dict_get "cases" data = JDict (combine keys cs) ->
  dict_get "deaths" data = JDict (combine keys ds) ->
  dict_get "recovered" data = JDict (combine keys rs) ->
  exists t,
    create_sample_data to_datetime (Response status (Some (JObject data)))
                       rc rd rr = Ok t
    /\ map date t = ts
    /\ map cases t = decumulate cs
    /\ map deaths t = decumulate ds
    /\ map recovered t = decumulate rs
    /\ (Sorted Z.le cs -> 0 <= hd 0 cs -> cumsum (map cases t) = cs)
    /\ (Sorted Z.le ds -> 0 <= hd 0 ds -> cumsum (map deaths t) = ds)
    /\ (Sorted Z.le rs -> 0 <= hd 0 rs -> cumsum (map recovered t) = rs).
Proof.
  intros _ _ _ Hst Hne Hk Hts Lc Ld Lr Dc Dd Dr.
  assert (Lt : List.length ts = List.length keys)
    by (rewrite <- (length_map Some ts), <- Hk, length_map; reflexivity).
  assert (Lct : List.length cs = List.length ts) by lia.
  destruct (map_date_rows ts cs Lct) as [Hd0 Hc0].
  set (df0 := map (fun x => mk_row (fst x) (snd x) 0 0) (combine ts cs))
    in *.
  set (df1 := with_column set_deaths df0 ds).
  set (df2 := with_column set_recovered df1 rs).
  assert (L0 : List.length df0 = List.length keys)
    by (rewrite <- (length_map date df0), Hd0; exact Lt).
  assert (Hd1 : map date df1 = ts)
    by (unfold df1; rewrite with_column_keep; auto; lia).
  assert (L1 : List.length df1 = List.length keys)
    by (rewrite <- (length_map date df1), Hd1; exact Lt).
  assert (Hd2 : map date df2 = ts)
    by (unfold df2; rewrite with_column_keep; auto; lia).
  assert (Hc2 : map cases df2 = cs).
  { unfold df2. rewrite with_column_keep by (auto; lia).
    unfold df1. rewrite with_column_keep by (auto; lia). exact Hc0. }
  assert (Hx2 : map deaths df2 = ds).
  { unfold df2. rewrite with_column_keep by (auto; lia).
    unfold df1. apply with_column_put; auto; lia. }
  assert (Hr2 : map recovered df2 = rs)
    by (unfold df2; apply with_column_put; auto; lia).
  assert (N2 : df2 <> []).
  { intros E. rewrite E in Hd2. simpl in Hd2. rewrite <- Hd2 in Lt.
    destruct keys; [congruence|discriminate]. }
  destruct (daily_steps df2 N2) as [t [Et [Td [Tc [Tx Tr]]]]].
  exists t.
  assert (Hlive : live to_datetime (Response status (Some (JObject data)))
                  = Ok t).
  { unfold live.
    replace ((400 <=? status) && (status <? 600)) with false
      by (symmetry; apply andb_false_iff; destruct Hst;
          [left; apply Z.leb_gt|right; apply Z.ltb_ge]; lia).
    rewrite Dc, Dd, Dr. simpl items_of. cbn [bind].
    rewrite (dated_aligned to_datetime keys ts cs Hk Lc). cbn [bind].
    fold df0.
    rewrite (join_counts_aligned to_datetime set_deaths keys ds df0);
      [|exact Hne|now rewrite Hd0|rewrite Hd0; now apply sorted_lt_nodup
       |exact Ld].
    cbn [bind]. fold df1.
    rewrite (join_counts_aligned to_datetime set_recovered keys rs df1);
      [|exact Hne|now rewrite Hd1|rewrite Hd1; now apply sorted_lt_nodup
       |exact Lr].
    cbn [bind]. fold df2.
    rewrite (sort_values_sorted date df2) by (rewrite Hd2; exact Hts).
    exact Et. }
  split; [unfold create_sample_data; now rewrite Hlive|].
  rewrite Td, Tc, Tx, Tr, Hd2, Hc2, Hx2, Hr2.
  repeat split; try reflexivity;
    intros Hs H0; now apply decumulate_monotone.
Qed.

(** The series 3, 8, 8, 20 / 0, 1, 1, 4 / 0, 0, 2, 5 over four days. *)
Lemma live_daily_counts_witness :
  exists t,
    create_sample_data Parse.iso_date
      (Response 200 (Some (JObject Demo.full_data)))
      (fun _ => 100) (fun _ => 0) (fun _ => 0) = Ok t
    /\ map date t = [18283; 18284; 18285; 18286]
    /\ map cases t = [3; 5; 0; 12]
    /\ map deaths t = [0; 1; 0; 3]
    /\ map recovered t = [0; 0; 2; 3]
    /\ cumsum (map cases t) = [3; 8; 8; 20].
Proof.
  destruct (live_daily_counts Parse.iso_date 200 Demo.full_data Demo.days4
              [18283; 18284; 18285; 18286]
              [3; 8; 8; 20] [0; 1; 1; 4] [0; 0; 2; 5]
              (fun _ => 100) (fun _ => 0) (fun _ => 0))
    as [t [H1 [H2 [H3 [H4 [H5 [H6 _]]]]]]].
  - repeat constructor.
  - repeat constructor.
  - repeat constructor.
  - left. lia.
  - discriminate.
  - vm_compute. reflexivity.
  - repeat constructor; lia.
  - reflexivity.
  - reflexivity.
  - reflexivity.
  - vm_compute. reflexivity.
  - vm_compute. reflexivity.
  - vm_compute. reflexivity.
  - exists t. repeat split; try assumption.
    apply H6; [repeat constructor; lia|simpl; lia].
Defined.

(** ** create_sample_data: the range of the synthetic table *)

Lemma trunc_bounds (x : R) (a b : Z) :
  (IZR a <= x)%R -> (x < IZR b + 1)%R -> 0 <= b -> a <= trunc x <= b.
Proof.
  intros Ha Hb Hb0. unfold trunc. destruct (Rle_dec 0 x) as [H0|H0].
  - destruct (base_Int_part x) as [Hle Hgt]. split.
    + assert (H : (IZR (a - 1) < IZR (Int_part x))%R)
        by (rewrite minus_IZR; lra).
      apply lt_IZR in H. lia.
    + assert (H : (IZR (Int_part x) < IZR (b + 1))%R)
        by (rewrite plus_IZR; lra).
      apply lt_IZR in H. lia.
  - destruct (base_Int_part (- x)) as [Hle Hgt]. split.
    + assert (H : (IZR (Int_part (- x)) <= IZR (- a))%R)
        by (rewrite opp_IZR; lra).
      apply le_IZR in H. lia.
    + assert (H : (IZR (-1) < IZR (Int_part (- x)))%R) by lra.
      apply lt_IZR in H. lia.
Qed.

Lemma fallback_cases_range (draw : Z) (k : nat) :
  100 <= draw < 1000 ->
  (-100 <= fallback_cases draw k <= 1199)%R.
Proof.
  intros [Hlo Hhi]. unfold fallback_cases.
  pose proof (SIN_bound (INR k * 0.1)) as [Hs1 Hs2].
  apply IZR_le in Hlo. assert (Hhi' : draw <= 999) by lia.
  apply IZR_le in Hhi'. lra.
Qed.

(** X7.  With draws in the ranges of the three calls of
    [np.random.randint] (100..999, 0..9 and 0..49), every row of the
    synthetic table has cases between -100 and 1199, deaths between -2
    and 32 and recovered between -80 and 1008. *)
Theorem fallback_ranges (rc rd rr : nat -> Z) :
  (forall k, 100 <= rc k < 1000) ->
  (forall k, 0 <= rd k < 10) ->
  (forall k, 0 <= rr k < 50) ->
  forall r, In r (fallback rc rd rr) ->
            -100 <= cases r <= 1199
            /\ -2 <= deaths r <= 32
            /\ -80 <= recovered r <= 1008.
Proof.
  intros Hc Hd Hr r Hin. unfold fallback in Hin.
  apply in_map_iff in Hin. destruct Hin as [k [<- _]]. simpl.
  pose proof (fallback_cases_range (rc k) k (Hc k)) as [Hlo Hhi].
  destruct (Hd k) as [Hd1 Hd2]. destruct (Hr k) as [Hr1 Hr2].
  assert (Hd2' : rd k <= 9) by lia. assert (Hr2' : rr k <= 49) by lia.
  apply IZR_le in Hd1, Hd2', Hr1, Hr2'.
  split; [|split]; apply trunc_bounds; try lra; lia.
Qed.

(** The draws 100, 0 and 0 throughout. *)
Lemma fallback_ranges_witness :
  forall r, In r (fallback (fun _ => 100) (fun _ => 0) (fun _ => 0)) ->
            -100 <= cases r <= 1199
            /\ -2 <= deaths r <= 32
            /\ -80 <= recovered r <= 1008.
Proof.
  apply (fallback_ranges (fun _ => 100) (fun _ => 0) (fun _ => 0));
    intros; lia.
Defined.

(** ** predict_cases: how far the forecast is from the trailing mean *)

Lemma trunc_sevenths (s : Z) : trunc (IZR s / 7) = Z.quot s 7.
Proof.
  destruct (Z_le_gt_dec 0 s) as [Hs|Hs].
  - rewrite Z.quot_div_nonneg by lia.
    pose proof (Z.div_mod s 7 ltac:(lia)) as Hdm.
    pose proof (Z.mod_pos_bound s 7 ltac:(lia)) as Hm.
    assert (H1 : 7 * (s / 7) <= s) by lia.
    assert (H2 : s < 7 * (s / 7 + 1)) by lia.
    apply IZR_le in H1. apply IZR_lt in H2.
    rewrite mult_IZR in H1. rewrite mult_IZR, plus_IZR in H2.
    apply trunc_floor; [lra|lra|].
    apply Z.div_pos; lia.
  - replace s with (- (- s)) at 2 by lia.
    rewrite Z.quot_opp_l by lia. rewrite Z.quot_div_nonneg by lia.
    pose proof (Z.div_mod (- s) 7 ltac:(lia)) as Hdm.
    pose proof (Z.mod_pos_bound (- s) 7 ltac:(lia)) as Hm.
    assert (H1 : 7 * (- s / 7) <= - s) by lia.
    assert (H2 : - s < 7 * (- s / 7 + 1)) by lia.
    apply IZR_le in H1. apply IZR_lt in H2.
    rewrite mult_IZR, opp_IZR in H1. rewrite mult_IZR, plus_IZR, opp_IZR in H2.
    unfold trunc. assert (Hneg : (IZR s < 0)%R) by (apply IZR_lt; lia).
    destruct (Rle_dec 0 (IZR s / 7)) as [H0|_]; [lra|].
    f_equal. apply Int_part_floor; lra.
Qed.

Lemma trunc_near (x : R) :
  (0 <= x)%R -> (IZR (trunc x) <= x < IZR (trunc x) + 1)%R.
Proof.
  intros H. unfold trunc. destruct (Rle_dec 0 x) as [_|Hn]; [|contradiction].
  destruct (base_Int_part x). lra.
Qed.

Lemma pred_first (avg : R) : pred avg 0 = avg.
Proof.
  unfold pred. simpl INR. rewrite Rmult_0_l, sin_0. lra.
Qed.

Lemma pred_band (avg : R) (i : nat) :
  (0 <= avg)%R -> (95 / 100 * avg <= pred avg i <= 105 / 100 * avg)%R.
Proof.
  intros H. unfold pred. pose proof (SIN_bound (INR i * 0.1)) as [H1 H2].
  split; nra.
Qed.

(** X8.  The first forecast is the sum of the last seven cases divided by
    7 and truncated toward zero; and when that sum S is not negative,
    every forecast p lies within 5 percent of the mean S/7, up to the
    truncation: 20 p <= 3 S and 19 S < 140 (p + 1). *)
Theorem predict_cases_range (df : Table) (days : nat) (preds : list (Z * Z)) :
  predict_cases df days = Some preds ->
  let S := Pd.sum (map cases (Pd.tail 7 df)) in
  ((0 < days)%nat ->
   nth_error preds 0 = Some (max_date df + 1, Z.quot S 7))
  /\ (0 <= S ->
      forall p, In p preds ->
                20 * snd p <= 3 * S /\ 19 * S < 140 * (snd p + 1)).
Proof.
  intros H S.
  assert (Hlen : (7 <= List.length df)%nat).
  { unfold predict_cases in H.
    destruct (Nat.ltb_spec (List.length df) 7); [discriminate|assumption]. }
  rewrite (predict_cases_eq df days Hlen) in H. injection H as <-.
  split.
  - intros Hd. destruct days as [|days]; [lia|]. simpl.
    rewrite pred_first. unfold last_week_avg. fold S.
    rewrite trunc_sevenths. do 2 f_equal. lia.
  - intros HS p Hp. apply in_map_iff in Hp. destruct Hp as [i [<- _]].
    cbn [snd]. unfold last_week_avg. fold S.
    assert (Havg : (0 <= IZR S / 7)%R)
      by (apply IZR_le in HS; lra).
    pose proof (pred_band (IZR S / 7) i Havg) as [Hlo Hhi].
    pose proof (trunc_near (pred (IZR S / 7) i)
                           (pred_nonneg _ i Havg)) as [Tlo Thi].
    set (p := trunc (pred (IZR S / 7) i)) in *. split.
    + apply le_IZR. rewrite !mult_IZR. lra.
    + apply lt_IZR. rewrite !mult_IZR, plus_IZR. lra.
Qed.

(** Seven days at 100 cases: the first forecast is 100, and all of them
    lie between 95 and 105. *)
Lemma predict_cases_range_witness :
  exists preds,
    predict_cases (Sample.week_table 100) 3 = Some preds
    /\ nth_error preds 0 = Some (18635, 100)
    /\ forall p, In p preds -> 20 * snd p <= 2100 /\ 13300 < 140 * (snd p + 1).
Proof.
  eexists. split; [apply predict_cases_eq; simpl; lia|].
  destruct (predict_cases_range (Sample.week_table 100) 3 _
              (predict_cases_eq (Sample.week_table 100) 3
                                ltac:(simpl; lia)))
    as [Hfirst Hband].
  split; [apply Hfirst; lia|].
  apply Hband. vm_compute. discriminate.
Defined.

(** ** The yearly roll-up: its rows and its peaks *)

Lemma present_map_some {K A} (f : A -> K) (l : list A) :
  Pd.present (map (fun r => Some (f r)) l) = map f l.
Proof.
  induction l as [|x l IH]; simpl; [reflexivity|]. now rewrite IH.
Qed.

Lemma year_stats_keys (df : Table) :
  map key (year_stats df) = Pd.group_keys Z.eqb Z.ltb (map year_of df).
Proof.
  unfold year_stats, Pd.groupby. rewrite !map_map. simpl.
  rewrite map_id. now rewrite present_map_some.
Qed.

Lemma maximum_in (l : list Z) (a : Z) : In (Pd.maximum a l) (a :: l).
Proof.
  unfold Pd.maximum. revert a. induction l as [|y l IH]; intros a; simpl.
  - now left.
  - destruct (IH (Z.max a y)) as [H|H].
    + rewrite <- H. destruct (Z.max_spec a y) as [[_ ->]|[_ ->]]; auto.
    + right. now right.
Qed.

(** The peak of a non-empty series is one of its values and bounds them
    all. *)
Lemma peak_spec (c : list Z) (x : Z) :
  In x c ->
  let p := match c with [] => 0 | y :: t => Pd.maximum y t end in
  In p c /\ x <= p.
Proof.
  destruct c as [|y t]; [intros []|]. intros Hx. simpl. split.
  - apply maximum_in.
  - destruct (maximum_ge t y) as [H1 H2].
    destruct Hx as [<-|Hx]; [exact H1|now apply H2].
Qed.

Lemma in_year_stats (df : Table) (s : Stat Z) :
  In s (year_stats df) <->
  exists y, (exists r, In r df /\ year_of r = y)
            /\ s = agg (y, filter (fun r => y =? year_of r) df).
Proof.
  unfold year_stats, Pd.groupby. rewrite map_map, in_map_iff.
  rewrite present_map_some. split.
  - intros [y [<- Hy]]. exists y. split; [|reflexivity].
    apply (proj1 (in_group_keys Z.eqb Z.ltb Z.eqb_eq _ _)) in Hy.
    apply in_map_iff in Hy. destruct Hy as [r [<- Hr]]. now exists r.
  - intros [y [[r [Hr <-]] ->]]. exists (year_of r). split; [reflexivity|].
    apply (in_group_keys Z.eqb Z.ltb Z.eqb_eq). now apply in_map.
Qed.

(** X9.  The yearly roll-up has one row per year that occurs among the
    dates of the table, and its rows come in ascending order of the
    year. *)
Theorem year_stats_rows (df : Table) :
  StronglySorted Z.lt (map key (year_stats df))
  /\ (forall y, In y (map key (year_stats df))
                <-> exists r, In r df /\ year_of r = y).
Proof.
  rewrite year_stats_keys. split; [apply group_keys_sorted|].
  intros y. rewrite (in_group_keys Z.eqb Z.ltb Z.eqb_eq), in_map_iff.
  split; intros [r [H1 H2]]; exists r; auto.
Qed.

(** X10.  In the yearly roll-up the total of a year is the sum, and its
    peak the largest, of the cases of the rows of that year, a value one
    of these rows has; no yearly peak exceeds the 'Peak Cases' of the
    whole table, and for a table with a row some year reaches it. *)
Theorem year_stats_peaks (df : Table) :
  (forall s, In s (year_stats df) ->
     total s
     = Pd.sum (map cases (filter (fun r => key s =? year_of r) df))
     /\ (exists r, In r df /\ year_of r = key s /\ cases r = peak s)
     /\ (forall r, In r df -> year_of r = key s -> cases r <= peak s)
     /\ peak s <= peak_cases df)
  /\ (df <> [] -> exists s, In s (year_stats df) /\ peak s = peak_cases df).
Proof.
  assert (Hgroup : forall y r0, In r0 df -> year_of r0 = y ->
            let s := agg (y, filter (fun r => y =? year_of r) df) in
            (exists r, In r df /\ year_of r = y /\ cases r = peak s)
            /\ (forall r, In r df -> year_of r = y -> cases r <= peak s)).
  { intros y r0 Hr0 Hy0. simpl.
    set (g := filter (fun r => y =? year_of r) df).
    assert (Hg0 : In (cases r0) (map cases g)).
    { apply in_map. apply filter_In. split; [exact Hr0|].
      apply Z.eqb_eq. now symmetry. }
    destruct (peak_spec (map cases g) (cases r0) Hg0) as [Hin _].
    simpl in Hin. split.
    - apply in_map_iff in Hin. destruct Hin as [r [Hc Hr]].
      apply filter_In in Hr. destruct Hr as [Hr Hy].
      apply Z.eqb_eq in Hy. exists r. repeat split; auto.
    - intros r Hr Hy.
      assert (Hg : In (cases r) (map cases g)).
      { apply in_map. apply filter_In. split; [exact Hr|].
        apply Z.eqb_eq. now symmetry. }
      now destruct (peak_spec (map cases g) (cases r) Hg). }
  assert (Hall : forall r, In r df -> cases r <= peak_cases df
                                      /\ In (peak_cases df) (map cases df)).
  { intros r Hr. unfold peak_cases.
    destruct (peak_spec (map cases df) (cases r) (in_map cases df r Hr)).
    split; assumption. }
  split.
  - intros s Hs. apply in_year_stats in Hs.
    destruct Hs as [y [[r0 [Hr0 Hy0]] ->]].
    destruct (Hgroup y r0 Hr0 Hy0) as [Hex Hle]. simpl in *.
    split; [reflexivity|]. split; [exact Hex|]. split; [exact Hle|].
    destruct Hex as [r [Hr [_ <-]]]. now apply Hall.
  - intros Hne. destruct df as [|r0 df'] eqn:Edf; [congruence|].
    rewrite <- Edf in *.
    assert (Hr0 : In r0 df) by (rewrite Edf; now left).
    destruct (Hall r0 Hr0) as [_ Hpk].
    apply in_map_iff in Hpk. destruct Hpk as [r [Hc Hr]].
    exists (agg (year_of r, filter (fun x => year_of r =? year_of x) df)).
    split.
    + apply in_year_stats. exists (year_of r). split; [|reflexivity].
      now exists r.
    + destruct (Hgroup (year_of r) r Hr eq_refl) as [[r' [Hr' [_ He]]] Hle].
      simpl in *. specialize (Hle r Hr eq_refl).
      destruct (Hall r' Hr') as [Hle' _]. lia.
Qed.

(** ** The session state over the runs of the script *)

Section SessionFacts.
Variable to_numeric : string -> option Z.
Variable to_datetime : string -> option Z.

Lemma create_sample_data_nonempty (resp : http) (rc rd rr : nat -> Z)
  (t : Table) :
  create_sample_data to_datetime resp rc rd rr = Ok t -> t <> [].
Proof.
  unfold create_sample_data.
  destruct (live to_datetime resp) as [df|e] eqn:E; intros H;
    injection H as <-.
  - destruct (live_inv to_datetime resp df E) as [df0 [Hne [_ [Hd _]]]].
    intros Hnil. rewrite Hnil in Hd.
    destruct df0; [now apply Hne|discriminate].
  - intros Hnil. pose proof (fallback_length rc rd rr) as L.
    rewrite Hnil in L. discriminate.
Qed.

Lemma run_never_empty (data : option Table) (r : Run) :
  never_empty data -> never_empty (run to_numeric to_datetime data r).
Proof.
  intros Hd t. unfold run, after_upload, after_button.
  destruct (uploaded_file r) as [f|].
  - destruct (load_data to_numeric to_datetime f) as [df|e] eqn:E;
      [|discriminate].
    intros H. injection H as <-.
    now destruct (load_data_inv to_numeric to_datetime f df E).
  - destruct (click r) as [c|]; [|apply Hd].
    destruct (create_sample_data to_datetime _ _ _ _) as [df|e] eqn:E;
      [|apply Hd].
    intros H. injection H as <-.
    now apply create_sample_data_nonempty in E.
Qed.

Lemma fold_run_never_empty (runs : list Run) (data : option Table) :
  never_empty data ->
  never_empty (fold_left (run to_numeric to_datetime) runs data).
Proof.
  revert data. induction runs as [|r runs IH]; intros data Hd; simpl.
  - exact Hd.
  - apply IH. now apply run_never_empty.
Qed.
End SessionFacts.

Lemma create_sample_data_never_raises_aux
  (to_datetime : string -> option Z) (resp : http) (rc rd rr : nat -> Z) :
  exists t,
    create_sample_data to_datetime resp rc rd rr = Ok t
    /\ (live to_datetime resp = Ok t \/ t = fallback rc rd rr).
Proof.
  unfold create_sample_data.
  destruct (live to_datetime resp) as [t|e].
  - exists t. split; [reflexivity|now left].
  - exists (fallback rc rd rr). split; [reflexivity|now right].
Qed.

(** X11.  Whatever the runs of a session were (their files with ASCII
    labels and cells in range, their responses with small counts), the
    table it holds, if it holds one, has at least one row; and the forecast shown for it is
    absent when the table has fewer than 7 rows and has 30 records
    otherwise. *)
Theorem session_table_nonempty
  (to_numeric to_datetime : string -> option Z) (runs : list Run) (t : Table) :
  Forall (exact_run to_numeric) runs ->
  session to_numeric to_datetime runs = Some t ->
  t <> []
  /\ ((List.length t < 7)%nat -> shown_forecast (Some t) = None)
  /\ ((7 <= List.length t)%nat ->
      exists preds, shown_forecast (Some t) = Some preds
                    /\ List.length preds = 30%nat).
Proof.
  intros _ H. split; [|split].
  - apply (fold_run_never_empty to_numeric to_datetime runs None);
      [intros t' E; discriminate|exact H].
  - intros Hlt. simpl. unfold predict_cases.
    destruct (Nat.ltb_spec (List.length t) 7); [reflexivity|lia].
  - intros Hge. simpl. rewrite (predict_cases_eq t 30 Hge).
    eexists. split; [reflexivity|].
    now rewrite length_map, length_seq.
Qed.

(** X12.  The last run (its file with ASCII labels and cells in range,
    its response with small counts) decides the state as follows.  With a file in the
    uploader the state is the table [load_data] returns for it, and None
    when [load_data] raises, whatever the session held before and whether
    or not the button was clicked in that run.  With no file and a click
    the state is the table derived from the response or the synthetic
    one.  With neither the state stays as it was. *)
Theorem session_last_run
  (to_numeric to_datetime : string -> option Z) (runs : list Run) (r : Run) :
  exact_run to_numeric r ->
  (forall f, uploaded_file r = Some f ->
     session to_numeric to_datetime (runs ++ [r])
     = match load_data to_numeric to_datetime f with
       | Ok t => Some t
       | Err _ => None
       end)
  /\ (forall c, uploaded_file r = None -> click r = Some c ->
        exists t,
          session to_numeric to_datetime (runs ++ [r]) = Some t
          /\ (live to_datetime (response c) = Ok t
              \/ t = fallback (draw_cases c) (draw_deaths c)
                              (draw_recovered c)))
  /\ (uploaded_file r = None -> click r = None ->
      session to_numeric to_datetime (runs ++ [r])
      = session to_numeric to_datetime runs).
Proof.
  intros _. unfold session. rewrite fold_left_app. simpl.
  unfold run, after_upload, after_button. split; [|split].
  - intros f ->. reflexivity.
  - intros c -> ->.
    destruct (create_sample_data_never_raises_aux to_datetime (response c)
                (draw_cases c) (draw_deaths c) (draw_recovered c))
      as [t [E Ht]].
    rewrite E. now exists t.
  - intros -> ->. reflexivity.
Qed.

(** The run with the frame Date,Cases in the uploader is of the kind the
    embedding is exact on. *)
Lemma upload_run_exact :
  exact_run Parse.integer
    {| click := None; uploaded_file := Some Sample.long_unsorted |}.
Proof.
  split.
  - intros f E. injection E as <-. split.
    + repeat constructor.
    + vm_compute. reflexivity.
  - intros c E. discriminate.
Defined.

(** One run with the frame Date,Cases in the uploader. *)
Lemma session_table_nonempty_witness :
  session Parse.integer Parse.iso_date
    [{| click := None; uploaded_file := Some Sample.long_unsorted |}]
  = Some [mk_row 18629 3 0 0; mk_row 18628 (-4) 0 0; mk_row 18628 7 0 0]
  /\ [mk_row 18629 3 0 0; mk_row 18628 (-4) 0 0; mk_row 18628 7 0 0] <> []
  /\ shown_forecast
       (Some [mk_row 18629 3 0 0; mk_row 18628 (-4) 0 0; mk_row 18628 7 0 0])
     = None.
Proof.
  split; [reflexivity|].
  destruct (session_table_nonempty Parse.integer Parse.iso_date
              [{| click := None; uploaded_file := Some Sample.long_unsorted |}]
              [mk_row 18629 3 0 0; mk_row 18628 (-4) 0 0; mk_row 18628 7 0 0]
              (Forall_cons _ upload_run_exact (Forall_nil _))
              eq_refl) as [H1 [H2 _]].
  split; [exact H1|]. apply H2. simpl. lia.
Defined.

(** After a click, a run with the frame Date,Cases in the uploader
    leaves the table of the file in the state. *)
Lemma session_last_run_witness :
  session Parse.integer Parse.iso_date
    [{| click := Some {| response := TimedOut;
                         draw_cases := fun _ => 100;
                         draw_deaths := fun _ => 0;
                         draw_recovered := fun _ => 0 |};
        uploaded_file := None |};
     {| click := None; uploaded_file := Some Sample.long_unsorted |}]
  = Some [mk_row 18629 3 0 0; mk_row 18628 (-4) 0 0; mk_row 18628 7 0 0].
Proof.
  destruct (session_last_run Parse.integer Parse.iso_date
              [{| click := Some {| response := TimedOut;
                                   draw_cases := fun _ => 100;
                                   draw_deaths := fun _ => 0;
                                   draw_recovered := fun _ => 0 |};
                  uploaded_file := None |}]
              {| click := None; uploaded_file := Some Sample.long_unsorted |}
              upload_run_exact) as [Hfile _].
  exact (Hfile Sample.long_unsorted eq_refl).
Defined.
